(** * Room-Enviro-Monitor: the monitoring loop of [monitor.py]

    A shallow embedding of the polling loop: the sensor, the buttons, the
    clock and the file system are inputs of a tick; the module-level
    variables ([prev_temp], [prev_humidity], [history], the frame counter,
    the canvas, the two log files and the terminal) are one explicit
    state.  Python floats are IEEE binary64 numbers, the kernel's primitive
    floats; Python integers are [Z]. *)

From Stdlib Require Import ZArith List String Ascii Bool Lia.
From Stdlib Require Import Floats.
Import ListNotations.

Set Warnings "-inexact-float".

Local Open Scope string_scope.
Local Open Scope Z_scope.

(** ** Python numbers *)

Module Py.

(** Exceptions the loop body can raise, all subclasses of [Exception], with
    the message [str(e)] gives. *)
Inductive exn_class : Type :=
| RuntimeError
| OSError
| ValueError
| OverflowError
| TypeError.

Record exn : Type := Exn { class : exn_class; message : string }.

(** [int(x)] on a float: truncation towards zero; [ValueError] on a NaN,
    [OverflowError] on an infinity. *)
Definition int (x : float) : exn + Z :=
  match Prim2SF x with
  | S754_zero _ => inr 0
  | S754_infinity _ =>
      inl (Exn OverflowError "cannot convert float infinity to integer")
  | S754_nan => inl (Exn ValueError "cannot convert float NaN to integer")
  | S754_finite s m e =>
      let v := match e with
               | Zneg p => Z.pos m / 2 ^ Z.pos p
               | _ => Z.pos m * 2 ^ e
               end in
      inr (if s then - v else v)
  end.

(** [float(n)] for an integer of at most 63 bits (lengths, literals). *)
Definition float_of_Z (n : Z) : float := PrimFloat.of_uint63 (Uint63.of_Z n).

(** [sum(xs)] of floats: additions from the left, starting at the integer 0
    (CPython up to 3.11; later versions compensate the rounding errors of
    the partial sums, which can change the last bits of the result). *)
Definition sum (xs : list float) : float :=
  fold_left PrimFloat.add xs (float_of_Z 0).

(** Decimal digits of a natural number, the most significant first. *)
Definition digit (n : Z) : ascii := ascii_of_nat (48 + Z.to_nat n).

Fixpoint digits_fuel (fuel : nat) (n : Z) (acc : string) : string :=
  match fuel with
  | O => acc
  | S k =>
      let acc' := String (digit (n mod 10)) acc in
      if n / 10 =? 0 then acc' else digits_fuel k (n / 10) acc'
  end.

Definition str_nat (n : Z) : string :=
  digits_fuel (S (Z.to_nat (Z.log2 n))) n "".

(** [n] where [0 <= n], padded with zeros on the left to [w] characters. *)
Fixpoint zeros (k : nat) : string :=
  match k with
  | O => ""
  | S k' => String "0" (zeros k')
  end.

Definition zfill (w : nat) (n : Z) : string :=
  let s := str_nat n in
  zeros (w - String.length s) ++ s.

(** [|x| * 10^d] rounded to an integer, ties to even, for a finite [x] whose
    magnitude is [m * 2^e]: the rounding of [format(x, ".df")]. *)
Definition round_half_even (num den : Z) : Z :=
  let q := num / den in
  let r := num mod den in
  match 2 * r ?= den with
  | Lt => q
  | Gt => q + 1
  | Eq => if Z.even q then q else q + 1
  end.

Definition scaled (d : nat) (m : positive) (e : Z) : Z :=
  let p := 10 ^ Z.of_nat d in
  match e with
  | Zneg k => round_half_even (Z.pos m * p) (2 ^ Z.pos k)
  | _ => Z.pos m * p * 2 ^ e
  end.

Definition fixed_digits (d : nat) (n : Z) : string :=
  let p := 10 ^ Z.of_nat d in
  match d with
  | O => str_nat n
  | _ => str_nat (n / p) ++ "." ++ zfill d (n mod p)
  end.

(** [format(x, ".df")]: fixed-point notation with [d] decimals. *)
Definition format_f (d : nat) (x : float) : string :=
  match Prim2SF x with
  | S754_nan => "nan"
  | S754_infinity s => if s then "-inf" else "inf"
  | S754_zero s => (if s then "-" else "") ++ fixed_digits d 0
  | S754_finite s m e => (if s then "-" else "") ++ fixed_digits d (scaled d m e)
  end.

End Py.

(** ** Conversions *)

(** [c_to_f]: [celsius * 9 / 5 + 32], evaluated from the left. *)
Definition c_to_f (celsius : float) : float :=
  (celsius * Py.float_of_Z 9 / Py.float_of_Z 5 + Py.float_of_Z 32)%float.


(** ** The clock *)

(** A [datetime.datetime] value, as [datetime.datetime.now()] returns it. *)
Record datetime : Type := Datetime {
  year : Z; month : Z; day : Z;
  hour : Z; minute : Z; second : Z;
  microsecond : Z
}.

(** [dt.strftime("%Y-%m-%d %H:%M:%S")], for a four-digit year. *)
Definition strftime (dt : datetime) : string :=
  Py.zfill 4 (year dt) ++ "-" ++ Py.zfill 2 (month dt) ++ "-" ++
  Py.zfill 2 (day dt) ++ " " ++ Py.zfill 2 (hour dt) ++ ":" ++
  Py.zfill 2 (minute dt) ++ ":" ++ Py.zfill 2 (second dt).

(** [str(dt)]: the ISO form with a space, the microseconds left out when
    they are zero. *)
Definition str_datetime (dt : datetime) : string :=
  strftime dt ++
  (if microsecond dt =? 0 then "" else "." ++ Py.zfill 6 (microsecond dt)).

(** ** State of the program *)

Definition LOG_FILE : string := "sensor_log.txt".
Definition SNAPSHOT_FILE : string := "snapshots.txt".

(** [display.width] and [display.height]: the ST7789 is built with its
    default width 240 and [height=240]; a rotation of 180 swaps nothing. *)
Definition width : Z := 240.
Definition height : Z := 240.

(** What [draw] puts on [image]. *)
Inductive shape : Type :=
| Rectangle (x0 y0 x1 y1 : Z) (fill : string)
| Text (x y : Z) (text : string) (fill : string).

(** What the program does to its surroundings, in program order. *)
Inductive event : Type :=
| Measure                           (* sensor.measurements *)
| Print (line : string)             (* print(...) *)
| PrintExc                          (* traceback.print_exc() *)
| DisplayImage                      (* display.image(image) *)
| Write (file : string) (text : string)
| ReadButtonA                       (* button_A.value *)
| ReadButtonB                       (* button_B.value *)
| Sleep (seconds : Z).              (* time.sleep(seconds) *)

Definition Sample : Type := (float * float)%type.

Record World : Type := MkWorld {
  prev_temp : option float;
  prev_humidity : option float;
  history : list Sample;            (* deque(maxlen=900), oldest first *)
  frame : Z;
  canvas : list shape;              (* drawn on [image] so far, oldest first *)
  log_file : list string;           (* written to LOG_FILE, oldest first *)
  snapshot_file : list string;      (* written to SNAPSHOT_FILE *)
  trace : list event
}.

(** What one iteration of the loop gets from outside. *)
Record TickInput : Type := MkInput {
  measurements : Py.exn + Sample;   (* sensor.measurements, or what it raises *)
  button_A_value : bool;            (* pulled up: False when pressed *)
  button_B_value : bool;
  log_open : option Py.exn;         (* what open(LOG_FILE, "a") raises, if anything *)
  log_now : datetime;
  snapshot_now : datetime;
  snapshot_open : option Py.exn
}.

(** ** Computations: state that survives an exception *)

Definition M (A : Type) : Type := World -> (Py.exn + A) * World.

Definition ret {A} (a : A) : M A := fun w => (inr a, w).

Definition raise {A} (e : Py.exn) : M A := fun w => (inl e, w).

Definition bind {A B} (m : M A) (k : A -> M B) : M B :=
  fun w =>
    match m w with
    | (inr a, w') => k a w'
    | (inl e, w') => (inl e, w')
    end.

Definition lift {A} (r : Py.exn + A) : M A :=
  match r with
  | inr a => ret a
  | inl e => raise e
  end.

Definition get : M World := fun w => (inr w, w).

Definition modify (f : World -> World) : M unit := fun w => (inr tt, f w).

(** [try: m  except Exception as e: h e]. *)
Definition try_except (m : M unit) (h : Py.exn -> M unit) : M unit :=
  fun w =>
    match m w with
    | (inr tt, w') => (inr tt, w')
    | (inl e, w') => h e w'
    end.

Declare Scope monad_scope.
Delimit Scope monad_scope with M.
Notation "x <- m ;; k" := (bind m (fun x => k))
  (at level 61, m at next level, right associativity) : monad_scope.
Notation "m ;; k" := (bind m (fun _ => k))
  (at level 61, right associativity) : monad_scope.
Notation "'when' b 'then' m" := (if b then m else ret tt)
  (at level 60, b at level 0) : monad_scope.
Local Open Scope monad_scope.

(** ** The collaborators *)

Definition emit (e : event) : M unit :=
  modify (fun w => MkWorld (prev_temp w) (prev_humidity w) (history w) (frame w)
                           (canvas w) (log_file w) (snapshot_file w)
                           (trace w ++ [e])%list).

Definition print (line : string) : M unit := emit (Print line).

Definition sleep (seconds : Z) : M unit := emit (Sleep seconds).

(** What [draw.rectangle] raises for a box whose corners are in the wrong
    order (Pillow from 9.5 on), the x coordinates being looked at first. *)
Definition rectangle_error (x0 y0 x1 y1 : Z) : option Py.exn :=
  if x1 <? x0
  then Some (Py.Exn Py.ValueError "x1 must be greater than or equal to x0")
  else if y1 <? y0
  then Some (Py.Exn Py.ValueError "y1 must be greater than or equal to y0")
  else None.

Definition shape_error (s : shape) : option Py.exn :=
  match s with
  | Rectangle x0 y0 x1 y1 _ => rectangle_error x0 y0 x1 y1
  | Text _ _ _ _ => None
  end.

(** [draw.rectangle] and [draw.text]: the shape is put on the canvas,
    unless it is a box the library refuses. *)
Definition draw (s : shape) : M unit :=
  match shape_error s with
  | Some e => raise e
  | None =>
      modify (fun w => MkWorld (prev_temp w) (prev_humidity w) (history w)
                               (frame w) (canvas w ++ [s])%list (log_file w)
                               (snapshot_file w) (trace w))
  end.

Definition display_image : M unit := emit DisplayImage.

(** [collections.deque.append] under [maxlen]: the item goes to the right
    end, then the left end is dropped when the deque got too long. *)
Definition deque_append {A} (maxlen : nat) (x : A) (d : list A) : list A :=
  let d' := (d ++ [x])%list in
  if (maxlen <? List.length d')%nat then tl d' else d'.

Definition maxlen : nat := 900.

Definition history_append (s : Sample) : M unit :=
  modify (fun w => MkWorld (prev_temp w) (prev_humidity w)
                           (deque_append maxlen s (history w)) (frame w)
                           (canvas w) (log_file w) (snapshot_file w) (trace w)).

(** [frame += n]. *)
Definition incr_frame (n : Z) : M unit :=
  modify (fun w => MkWorld (prev_temp w) (prev_humidity w) (history w)
                           (frame w + n) (canvas w) (log_file w)
                           (snapshot_file w) (trace w)).

Definition set_prev (t h : float) : M unit :=
  modify (fun w => MkWorld (Some t) (Some h) (history w) (frame w)
                           (canvas w) (log_file w) (snapshot_file w) (trace w)).

(** [with open(LOG_FILE, "a") as log: log.write(text)]. *)
Definition write_log (opened : option Py.exn) (text : string) : M unit :=
  match opened with
  | Some e => raise e
  | None =>
      modify (fun w => MkWorld (prev_temp w) (prev_humidity w) (history w)
                               (frame w) (canvas w) (log_file w ++ [text])%list
                               (snapshot_file w) (trace w)) ;;
      emit (Write LOG_FILE text)
  end.

(** [with open(SNAPSHOT_FILE, "a") as snap: snap.write(text)]. *)
Definition write_snapshot (opened : option Py.exn) (text : string) : M unit :=
  match opened with
  | Some e => raise e
  | None =>
      modify (fun w => MkWorld (prev_temp w) (prev_humidity w) (history w)
                               (frame w) (canvas w) (log_file w)
                               (snapshot_file w ++ [text])%list (trace w)) ;;
      emit (Write SNAPSHOT_FILE text)
  end.

(** ** The functions of [monitor.py] *)

Definition degree_F : string := "°F".

Definition newline : string := String (ascii_of_nat 10) "".

Definition log_change (i : TickInput) (temp_f humidity : float) : M unit :=
  write_log (log_open i)
    (str_datetime (log_now i) ++ " - Temp: " ++ Py.format_f 2 temp_f ++ degree_F ++
     ", Humidity: " ++ Py.format_f 2 humidity ++ "%" ++ newline).

Definition save_snapshot (i : TickInput) (temp_f humidity : float) : M unit :=
  let timestamp := strftime (snapshot_now i) in
  write_snapshot (snapshot_open i)
    (timestamp ++ " - Temp: " ++ Py.format_f 2 temp_f ++ degree_F ++
     ", Humidity: " ++ Py.format_f 2 humidity ++ "%" ++ newline) ;;
  draw (Rectangle 0 0 width height "black") ;;
  draw (Text 30 80 "Snapshot Saved!" "yellow") ;;
  draw (Text 30 120 timestamp "white") ;;
  display_image ;;
  sleep 2.

Definition draw_running_indicator (frame : Z) : M unit :=
  let bar_width := 50 in
  let bar_x := width - bar_width - 10 in
  let bar_y := height - 10 in
  let progress := frame mod bar_width in
  draw (Rectangle bar_x (bar_y - 5) (bar_x + progress) bar_y "green").

Definition draw_graphical_display (temp_f humidity : float) (frame : Z) : M unit :=
  draw (Rectangle 0 0 width height "black") ;;
  draw (Text 20 20 ("Temp: " ++ Py.format_f 1 temp_f ++ degree_F) "white") ;;
  draw (Text 20 50 ("Humidity: " ++ Py.format_f 1 humidity ++ "%") "white") ;;
  temp_bar_height <- lift (Py.int (temp_f / 122.0 * Py.float_of_Z 150)%float) ;;
  draw (Rectangle 180 (200 - temp_bar_height) 210 200 "red") ;;
  hum_bar_height <- lift (Py.int (humidity / 100.0 * Py.float_of_Z 150)%float) ;;
  draw (Rectangle 220 (200 - hum_bar_height) 250 200 "blue") ;;
  draw_running_indicator frame ;;
  display_image.

(** The two means [draw_average_display] computes, over a non-empty deque. *)
Definition avg_temp_c (h : list Sample) : float :=
  (Py.sum (map fst h) / Py.float_of_Z (Z.of_nat (List.length h)))%float.

Definition avg_humidity (h : list Sample) : float :=
  (Py.sum (map snd h) / Py.float_of_Z (Z.of_nat (List.length h)))%float.

Definition draw_average_display : M unit :=
  w <- get ;;
  if (List.length (history w) =? 0)%nat then ret tt
  else
    let avg_temp_f := c_to_f (avg_temp_c (history w)) in
    let avg_hum := avg_humidity (history w) in
    draw (Rectangle 0 0 width height "black") ;;
    draw (Text 40 50 "15 Min Avg:" "yellow") ;;
    draw (Text 40 100 ("Temp: " ++ Py.format_f 1 avg_temp_f ++ degree_F) "white") ;;
    draw (Text 40 150 ("Humidity: " ++ Py.format_f 1 avg_hum ++ "%") "white") ;;
    display_image ;;
    sleep 3.

(** [x - y] where [y] may still be [None]. *)
Definition sub_opt (x : float) (y : option float) : Py.exn + float :=
  match y with
  | Some y => inr (x - y)%float
  | None =>
      inl (Py.Exn Py.TypeError
        "unsupported operand type(s) for -: 'float' and 'NoneType'")
  end.

(** The test of the change log:
    [prev_temp is None or abs(temperature_f - prev_temp) > 0.3
     or abs(humidity - prev_humidity) > 0.3], with the shortcuts of [or]. *)
Definition changed (prev_temp prev_humidity : option float)
    (temperature_f humidity : float) : Py.exn + bool :=
  match prev_temp with
  | None => inr true
  | Some pt =>
      if (0.3 <? abs (temperature_f - pt))%float then inr true
      else
        match sub_opt humidity prev_humidity with
        | inr d => inr (0.3 <? abs d)%float
        | inl e => inl e
        end
  end.

(** The body of the inner [try], one definition for each of its commented
    blocks. *)

(** [# Read sensor data]: the sample, with its temperature in Fahrenheit. *)
Definition read_sensor_data (i : TickInput) : M (float * float * float) :=
  emit Measure ;;
  m <- lift (measurements i) ;;
  let temperature_c := fst m in
  let humidity := snd m in
  let temperature_f := c_to_f temperature_c in
  print ("Temp: " ++ Py.format_f 2 temperature_f ++ degree_F ++ ", Humidity: " ++
         Py.format_f 2 humidity ++ "%") ;;
  ret (temperature_c, temperature_f, humidity).

(** [# Update graphical display]. *)
Definition update_graphical_display (temperature_f humidity : float) : M unit :=
  w <- get ;;
  draw_graphical_display temperature_f humidity (frame w) ;;
  incr_frame 2.

(** [# Log changes]. *)
Definition log_changes (i : TickInput) (temperature_f humidity : float) : M unit :=
  w <- get ;;
  c <- lift (changed (prev_temp w) (prev_humidity w) temperature_f humidity) ;;
  when c then (log_change i temperature_f humidity ;;
               set_prev temperature_f humidity).

(** [# Check for button presses]. *)
Definition check_for_button_presses (i : TickInput)
    (temperature_f humidity : float) : M unit :=
  emit ReadButtonA ;;
  (when (negb (button_A_value i)) then
     (print "Button A Pressed - Showing 15-Min Average" ;;
      draw_average_display)) ;;
  emit ReadButtonB ;;
  when (negb (button_B_value i)) then
    (print "Button B Pressed - Saving Snapshot" ;;
     save_snapshot i temperature_f humidity).

Definition body (i : TickInput) : M unit :=
  r <- read_sensor_data i ;;
  let temperature_c := fst (fst r) in
  let temperature_f := snd (fst r) in
  let humidity := snd r in
  history_append (temperature_c, humidity) ;;
  update_graphical_display temperature_f humidity ;;
  log_changes i temperature_f humidity ;;
  check_for_button_presses i temperature_f humidity ;;
  sleep 1.

Definition handler (e : Py.exn) : M unit :=
  print ("Error reading sensor: " ++ Py.message e) ;;
  emit PrintExc ;;
  sleep 2.

(** One iteration of [while True]. *)
Definition tick (i : TickInput) : M unit := try_except (body i) handler.

Definition step (w : World) (i : TickInput) : World := snd (tick i w).

(** The loop over the inputs of its first iterations. *)
Definition run (inputs : list TickInput) (w : World) : World :=
  fold_left step inputs w.

(** The state when the loop is entered, the two files holding [log0] and
    [snap0]. *)
Definition initial (log0 snap0 : list string) : World :=
  MkWorld None None [] 0 [] log0 snap0 [Print "Starting sensor monitoring..."].

(** ** Notions of the specification *)

(** A button is pressed when its line reads low. *)
Definition pressed (value : bool) : bool := negb value.

(** The last-logged pair: ``none'' until both variables hold a number. *)
Definition last_logged (w : World) : option (float * float) :=
  match prev_temp w, prev_humidity w with
  | Some t, Some h => Some (t, h)
  | _, _ => None
  end.

(** [x] differs from [y] by more than 0.3. *)
Definition differs (x y : float) : bool := (0.3 <? abs (x - y))%float.

(** Whether a reading is due in the change log, given the last-logged pair. *)
Definition log_due (last : option (float * float)) (temp_f humidity : float) : bool :=
  match last with
  | None => true
  | Some (pt, ph) => differs temp_f pt || differs humidity ph
  end.

(** The unweighted arithmetic mean: the sum over the count. *)
Definition mean (xs : list float) : float :=
  (fold_left PrimFloat.add xs 0 / Py.float_of_Z (Z.of_nat (List.length xs)))%float.

(** The most recent [n] items of [l], in arrival order. *)
Definition most_recent {A} (n : nat) (l : list A) : list A :=
  skipn (List.length l - n) l.

(** The samples the sensor delivered over some iterations, in order. *)
Fixpoint samples (inputs : list TickInput) : list Sample :=
  match inputs with
  | [] => []
  | i :: rest =>
      match measurements i with
      | inr s => s :: samples rest
      | inl _ => samples rest
      end
  end.

(** The line either log gets for a reading. *)
Definition log_line (timestamp : string) (temp_f humidity : float) : string :=
  timestamp ++ " - Temp: " ++ Py.format_f 2 temp_f ++ degree_F ++
  ", Humidity: " ++ Py.format_f 2 humidity ++ "%" ++ newline.

(** The default view. *)
Definition default_view (temp_f humidity : float) (frame bar_t bar_h : Z) : list shape :=
  [ Rectangle 0 0 240 240 "black";
    Text 20 20 ("Temp: " ++ Py.format_f 1 temp_f ++ degree_F) "white";
    Text 20 50 ("Humidity: " ++ Py.format_f 1 humidity ++ "%") "white";
    Rectangle 180 (200 - bar_t) 210 200 "red";
    Rectangle 220 (200 - bar_h) 250 200 "blue";
    Rectangle 180 225 (180 + frame mod 50) 230 "green" ].

(** The average overlay for the means [t] (in Fahrenheit) and [h]. *)
Definition average_view (t h : float) : list shape :=
  [ Rectangle 0 0 240 240 "black";
    Text 40 50 "15 Min Avg:" "yellow";
    Text 40 100 ("Temp: " ++ Py.format_f 1 t ++ degree_F) "white";
    Text 40 150 ("Humidity: " ++ Py.format_f 1 h ++ "%") "white" ].

(** The confirmation overlay of a snapshot. *)
Definition snapshot_view (timestamp : string) : list shape :=
  [ Rectangle 0 0 240 240 "black";
    Text 30 80 "Snapshot Saved!" "yellow";
    Text 30 120 timestamp "white" ].

(** The steps of a tick that ends normally, as what each one adds to the
    trace and to the canvas. *)
Definition sample_events (temp_f humidity : float) : list event :=
  [ Measure;
    Print ("Temp: " ++ Py.format_f 2 temp_f ++ degree_F ++ ", Humidity: " ++
           Py.format_f 2 humidity ++ "%") ].

Definition render_events : list event := [ DisplayImage ].

Definition log_events (due : bool) (line : string) : list event :=
  if due then [ Write LOG_FILE line ] else [].

Definition button_A_events (value : bool) : list event :=
  ReadButtonA ::
  (if pressed value
   then [ Print "Button A Pressed - Showing 15-Min Average"; DisplayImage; Sleep 3 ]
   else []).

Definition button_B_events (value : bool) (line : string) : list event :=
  ReadButtonB ::
  (if pressed value
   then [ Print "Button B Pressed - Saving Snapshot"; Write SNAPSHOT_FILE line;
          DisplayImage; Sleep 2 ]
   else []).

(** The state a tick that ends normally leaves: [s] the sample, [bar_t] and
    [bar_h] the heights of the bars, [due] the outcome of the change test. *)
Definition after (i : TickInput) (w : World) (s : Sample) (bar_t bar_h : Z)
    (due : bool) : World :=
  let temp_f := c_to_f (fst s) in
  let hum := snd s in
  let hist := deque_append maxlen s (history w) in
  let line := log_line (str_datetime (log_now i)) temp_f hum in
  let snap := log_line (strftime (snapshot_now i)) temp_f hum in
  MkWorld
    (if due then Some temp_f else prev_temp w)
    (if due then Some hum else prev_humidity w)
    hist
    (frame w + 2)
    (canvas w ++ default_view temp_f hum (frame w) bar_t bar_h ++
     (if pressed (button_A_value i)
      then average_view (c_to_f (avg_temp_c hist)) (avg_humidity hist) else []) ++
     (if pressed (button_B_value i)
      then snapshot_view (strftime (snapshot_now i)) else []))%list
    (log_file w ++ (if due then [line] else []))%list
    (snapshot_file w ++ (if pressed (button_B_value i) then [snap] else []))%list
    (trace w ++ sample_events temp_f hum ++ render_events ++ log_events due line ++
     button_A_events (button_A_value i) ++ button_B_events (button_B_value i) snap ++
     [Sleep 1])%list.

(** The state of a tick when it comes to the change log. *)
Definition before_log (w : World) (s : Sample) (bar_t bar_h : Z) : World :=
  MkWorld (prev_temp w) (prev_humidity w)
          (deque_append maxlen s (history w)) (frame w + 2)
          (canvas w ++ default_view (c_to_f (fst s)) (snd s) (frame w) bar_t bar_h)%list
          (log_file w) (snapshot_file w)
          (trace w ++ sample_events (c_to_f (fst s)) (snd s) ++ render_events)%list.

(** The state a tick leaves when the sensor raised [e]. *)
Definition after_sensor_error (w : World) (e : Py.exn) : World :=
  MkWorld (prev_temp w) (prev_humidity w) (history w) (frame w) (canvas w)
          (log_file w) (snapshot_file w)
          (trace w ++ [ Measure; Print ("Error reading sensor: " ++ Py.message e);
                        PrintExc; Sleep 2 ])%list.

(** The worlds the loop can be in: those some iterations lead to. *)
Definition reachable (w : World) : Prop :=
  exists log0 snap0 inputs, w = run inputs (initial log0 snap0).

(** [prev_temp] and [prev_humidity] are set together. *)
Definition paired (w : World) : Prop :=
  prev_temp w = None <-> prev_humidity w = None.

(** A computation is stable for a relation on states when the state it
    leaves, normally or not, is related to the one it started in. *)
Definition stable (R : World -> World -> Prop) {A} (m : M A) : Prop :=
  forall w, R w (snd (m w)).

(** Inputs to try the loop on: a clock reading, and a tick whose sensor
    gives [(temperature_c, humidity)], whose buttons read [a] and [b], and
    whose files open. *)
Definition a_time : datetime := Datetime 2025 3 7 9 5 0 250000.

Definition reading (temperature_c humidity : float) (a b : bool) : TickInput :=
  MkInput (inr (temperature_c, humidity)) a b None a_time a_time None.

Definition io_error : Py.exn := Py.Exn Py.OSError "[Errno 5] Input/output error".

(** The relations used: a part [f] of the state is left as it was; the
    frame counter did not go down. *)
Definition keeps {B} (f : World -> B) : World -> World -> Prop :=
  fun w w' => f w' = f w.

Definition frame_grows : World -> World -> Prop :=
  fun w w' => frame w <= frame w'.

(** ** The ways a tick can end *)

(** What the handler of the inner [try] adds to the state the body left. *)
Definition handled (w : World) (e : Py.exn) : World :=
  MkWorld (prev_temp w) (prev_humidity w) (history w) (frame w) (canvas w)
          (log_file w) (snapshot_file w)
          (trace w ++ [ Print ("Error reading sensor: " ++ Py.message e);
                        PrintExc; Sleep 2 ])%list.

(** The heights of the two bars, or what [int] raises. *)
Definition temp_bar (temp_f : float) : Py.exn + Z :=
  Py.int (temp_f / 122.0 * Py.float_of_Z 150)%float.

Definition hum_bar (humidity : float) : Py.exn + Z :=
  Py.int (humidity / 100.0 * Py.float_of_Z 150)%float.

(** The height of a bar that gets drawn, or what its drawing raises: what
    [int] raises, or what the rectangle raises when the height is negative
    and the box would stand on its head. *)
Definition drawn_bar (height : Py.exn + Z) : Py.exn + Z :=
  match height with
  | inl e => inl e
  | inr bar =>
      match rectangle_error 0 (200 - bar) 0 200 with
      | Some e => inl e
      | None => inr bar
      end
  end.

Definition red_bar (temp_f : float) : Py.exn + Z := drawn_bar (temp_bar temp_f).

Definition blue_bar (humidity : float) : Py.exn + Z := drawn_bar (hum_bar humidity).

(** The state of a tick when it comes to write the snapshot. *)
Definition before_snapshot (i : TickInput) (w : World) (s : Sample)
    (bar_t bar_h : Z) (due : bool) : World :=
  let temp_f := c_to_f (fst s) in
  let hum := snd s in
  let hist := deque_append maxlen s (history w) in
  let line := log_line (str_datetime (log_now i)) temp_f hum in
  MkWorld
    (if due then Some temp_f else prev_temp w)
    (if due then Some hum else prev_humidity w)
    hist
    (frame w + 2)
    (canvas w ++ default_view temp_f hum (frame w) bar_t bar_h ++
     (if pressed (button_A_value i)
      then average_view (c_to_f (avg_temp_c hist)) (avg_humidity hist) else []))%list
    (log_file w ++ (if due then [line] else []))%list
    (snapshot_file w)
    (trace w ++ sample_events temp_f hum ++ render_events ++ log_events due line ++
     button_A_events (button_A_value i) ++
     [ReadButtonB; Print "Button B Pressed - Saving Snapshot"])%list.

(** The five ways one iteration of the loop ends, each with the state it
    leaves: the sensor raised; a bar could not be drawn; the change test or
    the change log raised; the snapshot file could not be
    opened; or the body ran to its end. *)
Inductive outcome (i : TickInput) (w : World) : World -> Prop :=
| SensorFailed (e : Py.exn) :
    measurements i = inl e ->
    outcome i w
      (handled (MkWorld (prev_temp w) (prev_humidity w) (history w) (frame w)
                        (canvas w) (log_file w) (snapshot_file w)
                        (trace w ++ [Measure])%list) e)
| RenderFailed (s : Sample) (e : Py.exn) (shapes : list shape) :
    measurements i = inr s ->
    red_bar (c_to_f (fst s)) = inl e \/
    (exists bar_t, red_bar (c_to_f (fst s)) = inr bar_t /\
                   blue_bar (snd s) = inl e) ->
    outcome i w
      (handled (MkWorld (prev_temp w) (prev_humidity w)
                        (deque_append maxlen s (history w)) (frame w)
                        (canvas w ++ shapes)%list (log_file w) (snapshot_file w)
                        (trace w ++ sample_events (c_to_f (fst s)) (snd s))%list) e)
| LogFailed (s : Sample) (bar_t bar_h : Z) (e : Py.exn) :
    measurements i = inr s ->
    red_bar (c_to_f (fst s)) = inr bar_t ->
    blue_bar (snd s) = inr bar_h ->
    changed (prev_temp w) (prev_humidity w) (c_to_f (fst s)) (snd s) = inl e \/
    (changed (prev_temp w) (prev_humidity w) (c_to_f (fst s)) (snd s) = inr true /\
     log_open i = Some e) ->
    outcome i w (handled (before_log w s bar_t bar_h) e)
| SnapshotFailed (s : Sample) (bar_t bar_h : Z) (due : bool) (e : Py.exn) :
    measurements i = inr s ->
    red_bar (c_to_f (fst s)) = inr bar_t ->
    blue_bar (snd s) = inr bar_h ->
    changed (prev_temp w) (prev_humidity w) (c_to_f (fst s)) (snd s) = inr due ->
    (due = true -> log_open i = None) ->
    pressed (button_B_value i) = true ->
    snapshot_open i = Some e ->
    outcome i w (handled (before_snapshot i w s bar_t bar_h due) e)
| Completed (s : Sample) (bar_t bar_h : Z) (due : bool) :
    measurements i = inr s ->
    red_bar (c_to_f (fst s)) = inr bar_t ->
    blue_bar (snd s) = inr bar_h ->
    changed (prev_temp w) (prev_humidity w) (c_to_f (fst s)) (snd s) = inr due ->
    (due = true -> log_open i = None) ->
    (pressed (button_B_value i) = true -> snapshot_open i = None) ->
    outcome i w (after i w s bar_t bar_h due).

(** Whether the default view of a tick gets drawn: the sensor delivered and
    both bars could be drawn. *)
Definition drawn (i : TickInput) : bool :=
  match measurements i with
  | inl _ => false
  | inr s =>
      match red_bar (c_to_f (fst s)), blue_bar (snd s) with
      | inr _, inr _ => true
      | _, _ => false
      end
  end.

(** The seconds slept over a trace. *)
Fixpoint slept (t : list event) : Z :=
  match t with
  | [] => 0
  | Sleep n :: rest => n + slept rest
  | _ :: rest => slept rest
  end.

(** The times the canvas was sent to the panel over a trace. *)
Fixpoint shown (t : list event) : Z :=
  match t with
  | [] => 0
  | DisplayImage :: rest => 1 + shown rest
  | _ :: rest => shown rest
  end.

(** A rectangle that lies within the canvas. *)
Definition inside (s : shape) : Prop :=
  match s with
  | Rectangle x0 y0 x1 y1 _ =>
      0 <= x0 <= x1 /\ x1 <= width /\ 0 <= y0 <= y1 /\ y1 <= height
  | Text _ _ _ _ => True
  end.

(** * Properties *)

(** ** Relations every step of a computation keeps *)

Section Stable.

Variable R : World -> World -> Prop.
Hypothesis R_refl : forall w, R w w.
Hypothesis R_trans : forall a b c, R a b -> R b c -> R a c.

Lemma stable_ret {A} (a : A) : stable R (ret a).
Proof. intro w. apply R_refl. Qed.

Lemma stable_raise {A} (e : Py.exn) : stable R (@raise A e).
Proof. intro w. apply R_refl. Qed.

Lemma stable_lift {A} (r : Py.exn + A) : stable R (lift r).
Proof. destruct r; [apply stable_raise | apply stable_ret]. Qed.

Lemma stable_get : stable R get.
Proof. intro w. apply R_refl. Qed.

Lemma stable_bind {A B} (m : M A) (k : A -> M B) :
  stable R m -> (forall a, stable R (k a)) -> stable R (bind m k).
Proof.
  intros Hm Hk w. unfold bind. specialize (Hm w).
  destruct (m w) as [[e | a] w1]; cbn in *; [assumption |].
  eapply R_trans; [eassumption | apply Hk].
Qed.

Lemma stable_try_except (m : M unit) (h : Py.exn -> M unit) :
  stable R m -> (forall e, stable R (h e)) -> stable R (try_except m h).
Proof.
  intros Hm Hh w. unfold try_except. specialize (Hm w).
  destruct (m w) as [[e | []] w1]; cbn in *; [| assumption].
  eapply R_trans; [eassumption | apply Hh].
Qed.

Lemma stable_modify (f : World -> World) :
  (forall w, R w (f w)) -> stable R (modify f).
Proof. intros Hf w. apply Hf. Qed.

Lemma stable_if {A} (b : bool) (m1 m2 : M A) :
  stable R m1 -> stable R m2 -> stable R (if b then m1 else m2).
Proof. destruct b; trivial. Qed.

End Stable.

(** ** Running a computation step by step *)

Lemma bind_ok {A B} (m : M A) (k : A -> M B) w a w' :
  m w = (inr a, w') -> bind m k w = k a w'.
Proof. intro H. unfold bind. rewrite H. reflexivity. Qed.

Lemma bind_raises {A B} (m : M A) (k : A -> M B) w e w' :
  m w = (inl e, w') -> bind m k w = (inl e, w').
Proof. intro H. unfold bind. rewrite H. reflexivity. Qed.

(** *** Boxes the library takes or refuses *)

Lemma rectangle_error_canvas : rectangle_error 0 0 width height = None.
Proof. reflexivity. Qed.

Lemma rectangle_error_bar x0 x1 bar :
  x0 <= x1 -> 0 <= bar -> rectangle_error x0 (200 - bar) x1 200 = None.
Proof.
  intros Hx Hb. unfold rectangle_error.
  destruct (Z.ltb_spec x1 x0); [lia |].
  destruct (Z.ltb_spec 200 (200 - bar)); [lia | reflexivity].
Qed.

Lemma rectangle_error_inverted x0 x1 bar :
  x0 <= x1 -> bar < 0 ->
  rectangle_error x0 (200 - bar) x1 200 =
  Some (Py.Exn Py.ValueError "y1 must be greater than or equal to y0").
Proof.
  intros Hx Hb. unfold rectangle_error.
  destruct (Z.ltb_spec x1 x0); [lia |].
  destruct (Z.ltb_spec 200 (200 - bar)); [reflexivity | lia].
Qed.

Lemma rectangle_error_indicator fr :
  rectangle_error (width - 50 - 10) (height - 10 - 5)
                  (width - 50 - 10 + fr mod 50) (height - 10) = None.
Proof.
  pose proof (Z.mod_pos_bound fr 50 ltac:(lia)). unfold rectangle_error.
  destruct (Z.ltb_spec (width - 50 - 10 + fr mod 50) (width - 50 - 10)); [lia |].
  reflexivity.
Qed.

Lemma drawn_bar_inr height bar :
  drawn_bar height = inr bar <-> height = inr bar /\ 0 <= bar.
Proof.
  unfold drawn_bar. destruct height as [e | b].
  - split; [discriminate | intros [H _]; discriminate].
  - destruct (Z.lt_ge_cases b 0) as [Hb | Hb].
    + rewrite (rectangle_error_inverted 0 0 b) by lia.
      split; [discriminate | intros [H Hp]; injection H as ->; lia].
    + rewrite (rectangle_error_bar 0 0 b) by lia.
      split; [intro H; injection H as ->; split; [reflexivity | lia] |].
      intros [H _]. exact H.
Qed.

Lemma drawn_bar_inl height e :
  drawn_bar height = inl e <->
  height = inl e \/
  exists bar,
    height = inr bar /\ bar < 0 /\
    e = Py.Exn Py.ValueError "y1 must be greater than or equal to y0".
Proof.
  unfold drawn_bar. destruct height as [e' | b].
  - split; [intro H; left; exact H |].
    intros [H | (bar & H & _)]; [exact H | discriminate].
  - destruct (Z.lt_ge_cases b 0) as [Hb | Hb].
    + rewrite (rectangle_error_inverted 0 0 b) by lia. split.
      * intro H. injection H as <-. right. exists b. auto.
      * intros [H | (bar & H & _ & ->)]; [discriminate | reflexivity].
    + rewrite (rectangle_error_bar 0 0 b) by lia. split; [discriminate |].
      intros [H | (bar & H & Hn & _)]; [discriminate |].
      injection H as ->. lia.
Qed.

Ltac run_m :=
  repeat (progress (
    unfold emit, print, sleep, draw, display_image, history_append, incr_frame,
      set_prev, modify, get, draw_running_indicator;
    cbn [bind lift ret raise fst snd prev_temp prev_humidity history frame canvas
         log_file snapshot_file trace shape_error];
    rewrite ?rectangle_error_canvas, ?rectangle_error_indicator)).

Lemma deque_append_nonempty {A} n (x : A) d :
  (0 < n)%nat -> deque_append n x d <> [].
Proof.
  intro Hn. unfold deque_append.
  destruct (Nat.ltb_spec n (List.length (d ++ [x]))) as [H | H].
  - rewrite length_app in H. cbn in H.
    destruct d as [| a [| b d]]; cbn in *; try lia; discriminate.
  - destruct d; discriminate.
Qed.

(** *** The views *)

Lemma draw_graphical_display_ok temp_f humidity fr w bar_t bar_h :
  red_bar temp_f = inr bar_t ->
  blue_bar humidity = inr bar_h ->
  draw_graphical_display temp_f humidity fr w =
  (inr tt,
   MkWorld (prev_temp w) (prev_humidity w) (history w) (frame w)
           (canvas w ++ default_view temp_f humidity fr bar_t bar_h)%list
           (log_file w) (snapshot_file w) (trace w ++ [DisplayImage])%list).
Proof.
  intros Ht Hh.
  apply drawn_bar_inr in Ht. destruct Ht as [Ht Hpt].
  apply drawn_bar_inr in Hh. destruct Hh as [Hh Hph].
  unfold temp_bar, hum_bar in *.
  unfold draw_graphical_display. run_m.
  rewrite Ht. run_m. rewrite (rectangle_error_bar 180 210 bar_t) by lia. run_m.
  rewrite Hh. run_m. rewrite (rectangle_error_bar 220 250 bar_h) by lia. run_m.
  unfold default_view. rewrite <- !app_assoc. reflexivity.
Qed.

Lemma draw_graphical_display_raises temp_f humidity fr w e :
  red_bar temp_f = inl e \/
  (exists bar_t, red_bar temp_f = inr bar_t /\ blue_bar humidity = inl e) ->
  exists shapes,
    draw_graphical_display temp_f humidity fr w =
    (inl e,
     MkWorld (prev_temp w) (prev_humidity w) (history w) (frame w)
             (canvas w ++ shapes)%list (log_file w) (snapshot_file w) (trace w)).
Proof.
  intros [Ht | (bar_t & Ht & Hh)].
  - apply drawn_bar_inl in Ht. unfold temp_bar in Ht.
    destruct Ht as [Ht | (bar & Ht & Hn & ->)];
      unfold draw_graphical_display; run_m; rewrite Ht; run_m;
      rewrite ?(rectangle_error_inverted 180 210 bar) by lia; run_m;
      rewrite <- !app_assoc; eexists; reflexivity.
  - apply drawn_bar_inr in Ht. destruct Ht as [Ht Hpt].
    apply drawn_bar_inl in Hh. unfold temp_bar, hum_bar in *.
    destruct Hh as [Hh | (bar & Hh & Hn & ->)];
      unfold draw_graphical_display; run_m; rewrite Ht; run_m;
      rewrite (rectangle_error_bar 180 210 bar_t) by lia; run_m;
      rewrite Hh; run_m;
      rewrite ?(rectangle_error_inverted 220 250 bar) by lia; run_m;
      rewrite <- !app_assoc; eexists; reflexivity.
Qed.

Lemma draw_average_display_empty w :
  history w = [] -> draw_average_display w = (inr tt, w).
Proof. intro H. unfold draw_average_display. run_m. rewrite H. reflexivity. Qed.

Lemma draw_average_display_ok w :
  history w <> [] ->
  draw_average_display w =
  (inr tt,
   MkWorld (prev_temp w) (prev_humidity w) (history w) (frame w)
           (canvas w ++ average_view (c_to_f (avg_temp_c (history w)))
                                     (avg_humidity (history w)))%list
           (log_file w) (snapshot_file w)
           (trace w ++ [DisplayImage; Sleep 3])%list).
Proof.
  intro H. unfold draw_average_display. run_m.
  destruct (Nat.eqb_spec (List.length (history w)) 0) as [E | E].
  - apply length_zero_iff_nil in E. contradiction.
  - run_m. unfold average_view. rewrite <- !app_assoc. reflexivity.
Qed.

(** *** The blocks of the loop body *)

Lemma read_sensor_data_ok i w s :
  measurements i = inr s ->
  read_sensor_data i w =
  (inr (fst s, c_to_f (fst s), snd s),
   MkWorld (prev_temp w) (prev_humidity w) (history w) (frame w) (canvas w)
           (log_file w) (snapshot_file w)
           (trace w ++ sample_events (c_to_f (fst s)) (snd s))%list).
Proof.
  intro Hm. unfold read_sensor_data. run_m. rewrite Hm. run_m.
  unfold sample_events. rewrite <- !app_assoc. reflexivity.
Qed.

Lemma read_sensor_data_error i w e :
  measurements i = inl e ->
  read_sensor_data i w =
  (inl e, MkWorld (prev_temp w) (prev_humidity w) (history w) (frame w) (canvas w)
                  (log_file w) (snapshot_file w) (trace w ++ [Measure])%list).
Proof. intro Hm. unfold read_sensor_data. run_m. rewrite Hm. reflexivity. Qed.

Lemma update_graphical_display_ok temp_f humidity w bar_t bar_h :
  red_bar temp_f = inr bar_t ->
  blue_bar humidity = inr bar_h ->
  update_graphical_display temp_f humidity w =
  (inr tt,
   MkWorld (prev_temp w) (prev_humidity w) (history w) (frame w + 2)
           (canvas w ++ default_view temp_f humidity (frame w) bar_t bar_h)%list
           (log_file w) (snapshot_file w) (trace w ++ render_events)%list).
Proof.
  intros Ht Hh. unfold update_graphical_display. run_m.
  erewrite bind_ok by (apply draw_graphical_display_ok; eassumption).
  run_m. reflexivity.
Qed.

Lemma update_graphical_display_raises temp_f humidity w e :
  red_bar temp_f = inl e \/
  (exists bar_t, red_bar temp_f = inr bar_t /\
                 blue_bar humidity = inl e) ->
  exists shapes,
    update_graphical_display temp_f humidity w =
    (inl e,
     MkWorld (prev_temp w) (prev_humidity w) (history w) (frame w)
             (canvas w ++ shapes)%list (log_file w) (snapshot_file w) (trace w)).
Proof.
  intro H. unfold update_graphical_display. run_m.
  destruct (draw_graphical_display_raises temp_f humidity (frame w) w e H)
    as [shapes Hw'].
  exists shapes. erewrite bind_raises by exact Hw'. reflexivity.
Qed.

Lemma log_changes_ok i temp_f humidity w due :
  changed (prev_temp w) (prev_humidity w) temp_f humidity = inr due ->
  (due = true -> log_open i = None) ->
  log_changes i temp_f humidity w =
  (inr tt,
   MkWorld (if due then Some temp_f else prev_temp w)
           (if due then Some humidity else prev_humidity w)
           (history w) (frame w) (canvas w)
           (log_file w ++
            (if due then [log_line (str_datetime (log_now i)) temp_f humidity]
             else []))%list
           (snapshot_file w)
           (trace w ++
            log_events due (log_line (str_datetime (log_now i)) temp_f humidity))%list).
Proof.
  intros Hc Hl. unfold log_changes. run_m. rewrite Hc. run_m.
  unfold log_change, write_log, log_events, log_line.
  destruct due; [rewrite (Hl eq_refl) |]; run_m; rewrite ?app_nil_r;
    [reflexivity | destruct w; reflexivity].
Qed.

Lemma log_changes_raises i temp_f humidity w e :
  changed (prev_temp w) (prev_humidity w) temp_f humidity = inl e \/
  (changed (prev_temp w) (prev_humidity w) temp_f humidity = inr true /\
   log_open i = Some e) ->
  log_changes i temp_f humidity w = (inl e, w).
Proof.
  intros [Hc | [Hc Hl]]; unfold log_changes; run_m; rewrite Hc; run_m;
    [reflexivity |].
  unfold log_change, write_log. rewrite Hl. reflexivity.
Qed.

Lemma check_for_button_presses_ok i temp_f humidity w :
  history w <> [] ->
  (pressed (button_B_value i) = true -> snapshot_open i = None) ->
  check_for_button_presses i temp_f humidity w =
  (inr tt,
   MkWorld (prev_temp w) (prev_humidity w) (history w) (frame w)
           (canvas w ++
            (if pressed (button_A_value i)
             then average_view (c_to_f (avg_temp_c (history w)))
                               (avg_humidity (history w))
             else []) ++
            (if pressed (button_B_value i)
             then snapshot_view (strftime (snapshot_now i)) else []))%list
           (log_file w)
           (snapshot_file w ++
            (if pressed (button_B_value i)
             then [log_line (strftime (snapshot_now i)) temp_f humidity]
             else []))%list
           (trace w ++ button_A_events (button_A_value i) ++
            button_B_events (button_B_value i)
              (log_line (strftime (snapshot_now i)) temp_f humidity))%list).
Proof.
  intros Hne Hs.
  unfold check_for_button_presses, save_snapshot, write_snapshot, pressed in *.
  run_m.
  destruct (button_A_value i); cbn [negb]; run_m;
    [| erewrite bind_ok by (apply draw_average_display_ok; exact Hne); run_m ];
    (destruct (button_B_value i); cbn [negb] in *; [| rewrite (Hs eq_refl)]; run_m).
  all: unfold button_A_events, button_B_events, pressed, log_line, snapshot_view;
       cbn [negb].
  all: rewrite <- ?app_assoc, ?app_nil_r; cbn [List.app]; reflexivity.
Qed.

Lemma check_for_button_presses_raises i temp_f humidity w e :
  history w <> [] ->
  pressed (button_B_value i) = true ->
  snapshot_open i = Some e ->
  exists w', check_for_button_presses i temp_f humidity w = (inl e, w').
Proof.
  intros Hne Hb Hs.
  unfold check_for_button_presses, save_snapshot, write_snapshot, pressed in *.
  rewrite Hb, Hs. run_m.
  destruct (button_A_value i); cbn [negb]; run_m;
    [| erewrite bind_ok by (apply draw_average_display_ok; exact Hne); run_m ];
    eexists; reflexivity.
Qed.

(** *** The whole body *)

Section Body.

Variables (i : TickInput) (w : World) (s : Sample).
Hypothesis Hm : measurements i = inr s.

Lemma body_sampled :
  body i w =
  (update_graphical_display (c_to_f (fst s)) (snd s) ;;
   log_changes i (c_to_f (fst s)) (snd s) ;;
   check_for_button_presses i (c_to_f (fst s)) (snd s) ;;
   sleep 1)
    (MkWorld (prev_temp w) (prev_humidity w)
             (deque_append maxlen s (history w)) (frame w) (canvas w)
             (log_file w) (snapshot_file w)
             (trace w ++ sample_events (c_to_f (fst s)) (snd s))%list).
Proof.
  unfold body. erewrite bind_ok by (apply read_sensor_data_ok; exact Hm).
  cbn [fst snd]. run_m. destruct s. reflexivity.
Qed.

Lemma body_render_error e :
  red_bar (c_to_f (fst s)) = inl e \/
  (exists bar_t,
     red_bar (c_to_f (fst s)) = inr bar_t /\
     blue_bar (snd s) = inl e) ->
  exists shapes,
    body i w =
    (inl e,
     MkWorld (prev_temp w) (prev_humidity w)
             (deque_append maxlen s (history w)) (frame w)
             (canvas w ++ shapes)%list (log_file w) (snapshot_file w)
             (trace w ++ sample_events (c_to_f (fst s)) (snd s))%list).
Proof.
  intro Hr. rewrite body_sampled.
  match goal with
  | |- context [bind _ _ ?W] =>
      destruct (update_graphical_display_raises (c_to_f (fst s)) (snd s) W e Hr)
        as [shapes Hw']
  end.
  exists shapes. erewrite bind_raises by exact Hw'. reflexivity.
Qed.

Variables bar_t bar_h : Z.
Hypothesis Ht : red_bar (c_to_f (fst s)) = inr bar_t.
Hypothesis Hh : blue_bar (snd s) = inr bar_h.

Lemma body_rendered :
  body i w =
  (log_changes i (c_to_f (fst s)) (snd s) ;;
   check_for_button_presses i (c_to_f (fst s)) (snd s) ;;
   sleep 1) (before_log w s bar_t bar_h).
Proof.
  rewrite body_sampled.
  erewrite bind_ok by (apply update_graphical_display_ok; eassumption).
  run_m. unfold before_log. rewrite <- !app_assoc. reflexivity.
Qed.

Lemma body_log_error e :
  changed (prev_temp w) (prev_humidity w) (c_to_f (fst s)) (snd s) = inl e \/
  (changed (prev_temp w) (prev_humidity w) (c_to_f (fst s)) (snd s) = inr true /\
   log_open i = Some e) ->
  body i w = (inl e, before_log w s bar_t bar_h).
Proof.
  intro Hc. rewrite body_rendered.
  erewrite bind_raises by (apply log_changes_raises; exact Hc). reflexivity.
Qed.

Variable due : bool.
Hypothesis Hc :
  changed (prev_temp w) (prev_humidity w) (c_to_f (fst s)) (snd s) = inr due.
Hypothesis Hl : due = true -> log_open i = None.

Lemma body_snapshot_error e :
  pressed (button_B_value i) = true ->
  snapshot_open i = Some e ->
  fst (body i w) = inl e.
Proof.
  intros Hb Hs. rewrite body_rendered.
  erewrite bind_ok by (apply log_changes_ok; [exact Hc | exact Hl]).
  match goal with
  | |- fst (bind _ _ ?W) = _ =>
      destruct (check_for_button_presses_raises i (c_to_f (fst s)) (snd s) W e)
        as [w' Hw'];
        [ cbn [history before_log]; apply deque_append_nonempty; unfold maxlen; lia
        | exact Hb | exact Hs | ]
  end.
  erewrite bind_raises by exact Hw'. reflexivity.
Qed.

Lemma body_ok :
  (pressed (button_B_value i) = true -> snapshot_open i = None) ->
  body i w = (inr tt, after i w s bar_t bar_h due).
Proof.
  intro Hs. rewrite body_rendered.
  erewrite bind_ok by (apply log_changes_ok; [exact Hc | exact Hl]).
  erewrite bind_ok
    by (apply check_for_button_presses_ok;
        [ cbn [history before_log]; apply deque_append_nonempty; unfold maxlen; lia
        | exact Hs ]).
  run_m. unfold after, before_log. cbn [history prev_temp prev_humidity frame
    canvas log_file snapshot_file trace].   rewrite <- !app_assoc. reflexivity.
Qed.

End Body.

Lemma body_sensor_error i w e :
  measurements i = inl e ->
  body i w =
  (inl e, MkWorld (prev_temp w) (prev_humidity w) (history w) (frame w) (canvas w)
                  (log_file w) (snapshot_file w) (trace w ++ [Measure])%list).
Proof.
  intro Hm. unfold body.
  erewrite bind_raises by (apply read_sensor_data_error; exact Hm). reflexivity.
Qed.

(** A tick that ends normally got a sample, could draw both bars, could
    decide the change test, and could open the files it wrote; it leaves
    the state [after]. *)
Lemma body_inv i w w' :
  body i w = (inr tt, w') ->
  exists s bar_t bar_h due,
    measurements i = inr s /\
    red_bar (c_to_f (fst s)) = inr bar_t /\
    blue_bar (snd s) = inr bar_h /\
    changed (prev_temp w) (prev_humidity w) (c_to_f (fst s)) (snd s) = inr due /\
    (due = true -> log_open i = None) /\
    (pressed (button_B_value i) = true -> snapshot_open i = None) /\
    w' = after i w s bar_t bar_h due.
Proof.
  intro H.
  destruct (measurements i) as [e | s] eqn:Hm.
  { rewrite (body_sensor_error i w e Hm) in H. discriminate. }
  destruct (red_bar (c_to_f (fst s)))
    as [e | bar_t] eqn:Ht.
  { destruct (body_render_error i w s Hm e (or_introl Ht)) as [shapes E].
    rewrite H in E. discriminate. }
  destruct (blue_bar (snd s)) as [e | bar_h] eqn:Hh.
  { destruct (body_render_error i w s Hm e
                (or_intror (ex_intro _ bar_t (conj Ht Hh)))) as [shapes E].
    rewrite H in E. discriminate. }
  destruct (changed (prev_temp w) (prev_humidity w) (c_to_f (fst s)) (snd s))
    as [e | due] eqn:Hc.
  { rewrite (body_log_error i w s Hm bar_t bar_h Ht Hh e (or_introl Hc)) in H.
    discriminate. }
  assert (Hl : due = true -> log_open i = None).
  { intros ->. destruct (log_open i) as [e |] eqn:Hl; [| reflexivity].
    rewrite (body_log_error i w s Hm bar_t bar_h Ht Hh e (or_intror (conj Hc Hl))) in H.
    discriminate. }
  assert (Hs : pressed (button_B_value i) = true -> snapshot_open i = None).
  { intro Hb. destruct (snapshot_open i) as [e |] eqn:Hs; [| reflexivity].
    pose proof (body_snapshot_error i w s Hm bar_t bar_h Ht Hh due Hc Hl e Hb Hs) as E.
    rewrite H in E. discriminate. }
  exists s, bar_t, bar_h, due.
  rewrite (body_ok i w s Hm bar_t bar_h Ht Hh due Hc Hl Hs) in H.
  repeat split; try assumption. congruence.
Qed.

(** *** The [try] around the body *)

Lemma tick_normal i w w' :
  body i w = (inr tt, w') -> tick i w = (inr tt, w').
Proof. intro H. unfold tick, try_except. rewrite H. reflexivity. Qed.

Lemma tick_handled i w e w1 :
  body i w = (inl e, w1) ->
  tick i w =
  (inr tt,
   MkWorld (prev_temp w1) (prev_humidity w1) (history w1) (frame w1) (canvas w1)
           (log_file w1) (snapshot_file w1)
           (trace w1 ++ [ Print ("Error reading sensor: " ++ Py.message e);
                          PrintExc; Sleep 2 ])%list).
Proof.
  intro H. unfold tick, try_except. rewrite H. unfold handler. run_m.
  rewrite <- !app_assoc. reflexivity.
Qed.

(** The loop never stops on an exception of its body. *)
Lemma tick_returns i w : fst (tick i w) = inr tt.
Proof.
  destruct (body i w) as [[e | []] w1] eqn:H.
  - rewrite (tick_handled i w e w1 H). reflexivity.
  - rewrite (tick_normal i w w1 H). reflexivity.
Qed.

(** ** What every tick keeps *)

Lemma keeps_refl {B} (f : World -> B) w : keeps f w w.
Proof. reflexivity. Qed.

Lemma keeps_trans {B} (f : World -> B) a b c :
  keeps f a b -> keeps f b c -> keeps f a c.
Proof. unfold keeps. congruence. Qed.

Lemma frame_grows_refl w : frame_grows w w.
Proof. unfold frame_grows. lia. Qed.

Lemma frame_grows_trans a b c :
  frame_grows a b -> frame_grows b c -> frame_grows a c.
Proof. unfold frame_grows. lia. Qed.

Ltac stable_steps Hrefl Htrans :=
  repeat first
    [ apply (stable_bind _ Htrans); [| intros ?]
    | apply stable_if
    | apply (stable_ret _ Hrefl)
    | apply (stable_raise _ Hrefl)
    | apply (stable_lift _ Hrefl)
    | apply (stable_get _ Hrefl)
    | apply (stable_try_except _ Htrans); [| intros ?]
    | match goal with
      | |- stable _ (modify _) => apply stable_modify; intros ?
      | |- stable _ (match ?x with _ => _ end) => destruct x
      end
    | progress unfold tick, body, handler, read_sensor_data,
        update_graphical_display, log_changes, check_for_button_presses,
        draw_graphical_display, draw_running_indicator, draw_average_display,
        log_change, save_snapshot, write_log, write_snapshot,
        emit, print, sleep, draw, display_image, set_prev, incr_frame,
        history_append ].

Lemma after_sample_keeps_history i t h :
  stable (keeps history)
    (update_graphical_display t h ;; log_changes i t h ;;
     check_for_button_presses i t h ;; sleep 1).
Proof.
  stable_steps (keeps_refl history) (keeps_trans history); reflexivity.
Qed.

Lemma handler_keeps_history e : stable (keeps history) (handler e).
Proof.
  stable_steps (keeps_refl history) (keeps_trans history); reflexivity.
Qed.

(** Whatever else happens in a tick, the sample the sensor gave is in the
    history, and nothing else is added to it. *)
Lemma step_history w i :
  history (step w i) =
  match measurements i with
  | inr s => deque_append maxlen s (history w)
  | inl _ => history w
  end.
Proof.
  unfold step. destruct (measurements i) as [e | s] eqn:Hm.
  - rewrite (tick_handled i w e _ (body_sensor_error i w e Hm)). reflexivity.
  - unfold tick, try_except. rewrite (body_sampled i w s Hm).
    match goal with
    | |- context [bind ?m ?k ?W] =>
        pose proof (after_sample_keeps_history i (c_to_f (fst s)) (snd s) W) as HK;
        destruct (bind m k W) as [[e | []] w1]
    end; cbn [snd] in *.
    + rewrite (handler_keeps_history e w1). exact HK.
    + exact HK.
Qed.

Lemma tick_frame_grows i : stable frame_grows (tick i).
Proof.
  stable_steps frame_grows_refl frame_grows_trans;
    unfold frame_grows; cbn [frame]; lia.
Qed.

Lemma tick_paired i : stable (fun w w' => paired w -> paired w') (tick i).
Proof.
  assert (Hrefl : forall w, paired w -> paired w) by trivial.
  assert (Htrans : forall a b c : World,
             (paired a -> paired b) -> (paired b -> paired c) ->
             paired a -> paired c) by auto.
  stable_steps Hrefl Htrans; try (intro H; exact H).
  intros _. unfold paired. cbn. split; discriminate.
Qed.

Lemma run_paired inputs w : paired w -> paired (run inputs w).
Proof.
  revert w. induction inputs as [| i rest IH]; intros w H; [exact H |].
  cbn. apply IH. exact (tick_paired i w H).
Qed.

Lemma reachable_paired w : reachable w -> paired w.
Proof.
  intros (log0 & snap0 & inputs & ->). apply run_paired.
  unfold paired, initial. cbn. tauto.
Qed.

Lemma changed_paired w temp_f humidity :
  paired w ->
  changed (prev_temp w) (prev_humidity w) temp_f humidity =
  inr (log_due (last_logged w) temp_f humidity).
Proof.
  unfold paired, changed, last_logged, log_due, differs, sub_opt.
  destruct (prev_temp w) as [pt |], (prev_humidity w) as [ph |]; intros [H1 H2];
    try reflexivity.
  - destruct (0.3 <? abs (temp_f - pt))%float; reflexivity.
  - specialize (H2 eq_refl). discriminate.
Qed.

(** ** The deque *)

Lemma tl_skipn {A} n (l : list A) : tl (skipn n l) = skipn (S n) l.
Proof.
  revert l. induction n as [| n IH]; intros [| a l]; try reflexivity.
  cbn [skipn] in *. rewrite IH. destruct l; reflexivity.
Qed.

Lemma deque_append_most_recent {A} n (l : list A) x :
  deque_append n x (most_recent n l) = most_recent n (l ++ [x]).
Proof.
  unfold deque_append, most_recent.
  assert (E : (skipn (List.length l - n) l ++ [x])%list =
              skipn (List.length l - n) (l ++ [x])).
  { rewrite skipn_app.
    replace (List.length l - n - List.length l)%nat with 0%nat by lia.
    reflexivity. }
  rewrite E, length_skipn, !length_app. cbn [List.length].
  destruct (Nat.ltb_spec n (List.length l + 1 - (List.length l - n))) as [H | H].
  - rewrite tl_skipn. f_equal. lia.
  - f_equal. lia.
Qed.

Lemma run_history inputs w l :
  history w = most_recent maxlen l ->
  history (run inputs w) = most_recent maxlen (l ++ samples inputs).
Proof.
  revert w l. induction inputs as [| i rest IH]; intros w l H;
    cbn [run fold_left samples].
  - rewrite app_nil_r. exact H.
  - fold (run rest (step w i)). pose proof (step_history w i) as Hs.
    destruct (measurements i) as [e | s].
    + apply IH. congruence.
    + replace (l ++ s :: samples rest)%list with ((l ++ [s]) ++ samples rest)%list
        by (rewrite <- app_assoc; reflexivity).
      apply IH. rewrite Hs, H. apply deque_append_most_recent.
Qed.

(** * The specified behaviour *)

Lemma log_due_spec last temp_f humidity :
  log_due last temp_f humidity = true <->
  last = None \/
  exists pt ph, last = Some (pt, ph) /\
                (differs temp_f pt = true \/ differs humidity ph = true).
Proof.
  unfold log_due. destruct last as [[pt ph] |].
  - rewrite orb_true_iff. split.
    + intro H. right. exists pt, ph. split; [reflexivity | exact H].
    + intros [H | (pt' & ph' & E & H)]; [discriminate | congruence].
  - split; [intros _; left; reflexivity | reflexivity].
Qed.

(** C1.  On a tick that ends normally, in any state the loop can reach, a
    line is added to the change log exactly when no reading was logged
    before, or the temperature in Fahrenheit differs from the last-logged
    one by more than 0.3, or the humidity does.  When the line is written
    it is the line of the current reading and the last-logged pair becomes
    the current pair; when it is not, the log and the pair stay as they
    were. *)
Theorem change_log_rule w i w' :
  reachable w ->
  body i w = (inr tt, w') ->
  exists temperature_c humidity,
    measurements i = inr (temperature_c, humidity) /\
    let temperature_f := c_to_f temperature_c in
    ((exists line, log_file w' = (log_file w ++ [line])%list) <->
     (last_logged w = None \/
      exists pt ph, last_logged w = Some (pt, ph) /\
                    (differs temperature_f pt = true \/
                     differs humidity ph = true))) /\
    (log_due (last_logged w) temperature_f humidity = true ->
     log_file w' =
       (log_file w ++
        [log_line (str_datetime (log_now i)) temperature_f humidity])%list /\
     last_logged w' = Some (temperature_f, humidity)) /\
    (log_due (last_logged w) temperature_f humidity = false ->
     log_file w' = log_file w /\ last_logged w' = last_logged w).
Proof.
  intros Hr Hb.
  destruct (body_inv i w w' Hb)
    as (s & bar_t & bar_h & due & Hm & _ & _ & Hc & _ & _ & ->).
  rewrite (changed_paired w _ _ (reachable_paired w Hr)) in Hc.
  injection Hc as <-. destruct s as [tc h]. exists tc, h. cbn [fst snd] in *.
  split; [exact Hm |]. cbn zeta. rewrite <- log_due_spec.
  unfold after, last_logged at 2 4. cbn [log_file prev_temp prev_humidity fst snd].
  destruct (log_due (last_logged w) (c_to_f tc) h).
  - repeat split; intros; try discriminate; try reflexivity.
    eexists. reflexivity.
  - rewrite app_nil_r. repeat split; intros; try discriminate; try reflexivity.
    match goal with H : exists _, _ |- _ => destruct H as [line E] end.
    apply (f_equal (@List.length string)) in E.
    rewrite length_app in E. cbn in E. lia.
Qed.

Lemma change_log_rule_witness :
  exists temperature_c humidity,
    measurements (reading 20 50 true true) = inr (temperature_c, humidity) /\
    let temperature_f := c_to_f temperature_c in
    let w := initial [] [] in
    let w' := snd (body (reading 20 50 true true) w) in
    ((exists line, log_file w' = (log_file w ++ [line])%list) <->
     (last_logged w = None \/
      exists pt ph, last_logged w = Some (pt, ph) /\
                    (differs temperature_f pt = true \/
                     differs humidity ph = true))) /\
    (log_due (last_logged w) temperature_f humidity = true ->
     log_file w' =
       (log_file w ++
        [log_line (str_datetime (log_now (reading 20 50 true true)))
                  temperature_f humidity])%list /\
     last_logged w' = Some (temperature_f, humidity)) /\
    (log_due (last_logged w) temperature_f humidity = false ->
     log_file w' = log_file w /\ last_logged w' = last_logged w).
Proof.
  apply (change_log_rule (initial [] []) (reading 20 50 true true)
           (snd (body (reading 20 50 true true) (initial [] [])))).
  - exists [], [], []. reflexivity.
  - vm_compute. reflexivity.
Defined.

(** C2.  When the sensor read raises, the tick appends nothing to the
    history, leaves the last-logged pair and both log files as they were,
    does not stop the loop (the exception is caught, the next iteration
    runs), and sleeps 2 seconds, not 1: after the read it only reports the
    error and sleeps. *)
Theorem sensor_failure_skips_tick w i e rest :
  measurements i = inl e ->
  tick i w = (inr tt, after_sensor_error w e) /\
  history (step w i) = history w /\
  prev_temp (step w i) = prev_temp w /\
  prev_humidity (step w i) = prev_humidity w /\
  log_file (step w i) = log_file w /\
  snapshot_file (step w i) = snapshot_file w /\
  trace (step w i) =
    (trace w ++ [ Measure; Print ("Error reading sensor: " ++ Py.message e);
                  PrintExc; Sleep 2 ])%list /\
  run (i :: rest) w = run rest (after_sensor_error w e).
Proof.
  intro Hm.
  assert (E : tick i w = (inr tt, after_sensor_error w e)).
  { rewrite (tick_handled i w e _ (body_sensor_error i w e Hm)).
    unfold after_sensor_error. cbn [prev_temp prev_humidity history frame canvas
      log_file snapshot_file trace]. rewrite <- app_assoc. reflexivity. }
  unfold run. cbn [fold_left]. unfold step. rewrite E. cbn [snd].
  repeat split; reflexivity.
Qed.

Lemma sensor_failure_skips_tick_witness :
  let i := MkInput (inl io_error) false false None a_time a_time None in
  let w := run [reading 20 50 true true] (initial [] []) in
  tick i w = (inr tt, after_sensor_error w io_error) /\
  history (step w i) = history w /\
  prev_temp (step w i) = prev_temp w /\
  prev_humidity (step w i) = prev_humidity w /\
  log_file (step w i) = log_file w /\
  snapshot_file (step w i) = snapshot_file w /\
  trace (step w i) =
    (trace w ++ [ Measure; Print ("Error reading sensor: " ++ Py.message io_error);
                  PrintExc; Sleep 2 ])%list /\
  run [i; reading 22 52 true true] w =
    run [reading 22 52 true true] (after_sensor_error w io_error).
Proof.
  exact (sensor_failure_skips_tick
           (run [reading 20 50 true true] (initial [] []))
           (MkInput (inl io_error) false false None a_time a_time None)
           io_error [reading 22 52 true true] eq_refl).
Defined.

Lemma avg_temp_c_mean h : avg_temp_c h = mean (map fst h).
Proof. unfold avg_temp_c, mean, Py.sum. rewrite length_map. reflexivity. Qed.

Lemma avg_humidity_mean h : avg_humidity h = mean (map snd h).
Proof. unfold avg_humidity, mean, Py.sum. rewrite length_map. reflexivity. Qed.

(** C3.  On a non-empty history the average display shows the unweighted
    mean of the stored Celsius temperatures, converted to Fahrenheit after
    the averaging, and the unweighted mean of the stored humidities; after
    the samples (20, 50) and (22, 52) were pushed these are 69.8 and 51.
    Converting each sample first is another computation: on the samples
    (0.1, 50) and (0.2, 52) it gives another number. *)
Theorem average_is_mean w :
  history w <> [] ->
  draw_average_display w =
  (inr tt,
   MkWorld (prev_temp w) (prev_humidity w) (history w) (frame w)
           (canvas w ++
            average_view (c_to_f (mean (map fst (history w))))
                         (mean (map snd (history w))))%list
           (log_file w) (snapshot_file w)
           (trace w ++ [DisplayImage; Sleep 3])%list) /\
  (let pushed := deque_append maxlen (22, 52)%float
                   (deque_append maxlen (20, 50)%float []) in
   c_to_f (mean (map fst pushed)) = 69.8%float /\
   mean (map snd pushed) = 51%float) /\
  (let other := [(0.1, 50); (0.2, 52)]%float in
   (c_to_f (mean (map fst other)) =?
    mean (map c_to_f (map fst other)))%float = false).
Proof.
  intro H. split; [| split].
  - rewrite (draw_average_display_ok w H), avg_temp_c_mean, avg_humidity_mean.
    reflexivity.
  - vm_compute. split; reflexivity.
  - vm_compute. reflexivity.
Qed.

Lemma average_is_mean_witness :
  let w := run [reading 20 50 true true; reading 22 52 true true] (initial [] []) in
  draw_average_display w =
  (inr tt,
   MkWorld (prev_temp w) (prev_humidity w) (history w) (frame w)
           (canvas w ++ average_view 69.8%float 51%float)%list
           (log_file w) (snapshot_file w)
           (trace w ++ [DisplayImage; Sleep 3])%list).
Proof.
  refine (proj1 (average_is_mean
            (run [reading 20 50 true true; reading 22 52 true true] (initial [] []))
            _)).
  vm_compute. discriminate.
Defined.

Lemma most_recent_length {A} n (l : list A) :
  List.length (most_recent n l) = Nat.min (List.length l) n.
Proof. unfold most_recent. rewrite length_skipn. lia. Qed.

(** C4.  After any number of iterations from the start of the loop, the
    history holds the most recent [min(pushed, 900)] of the samples the
    sensor delivered, in the order they came (the oldest are the ones that
    were dropped), and that many items. *)
Theorem history_is_most_recent log0 snap0 inputs :
  let pushed := samples inputs in
  let h := history (run inputs (initial log0 snap0)) in
  h = most_recent 900 pushed /\
  List.length h = Nat.min (List.length pushed) 900 /\
  exists dropped, pushed = (dropped ++ h)%list.
Proof.
  cbn zeta.
  rewrite (run_history inputs (initial log0 snap0) [] eq_refl). cbn [List.app].
  split; [reflexivity |]. split; [apply most_recent_length |].
  exists (firstn (List.length (samples inputs) - maxlen) (samples inputs)).
  unfold most_recent. symmetry. apply firstn_skipn.
Qed.

(** C5.  With an empty history the average display does nothing: it ends
    normally and the state (canvas, trace of display and sleep actions,
    everything else) is the one it started in. *)
Theorem average_of_nothing w :
  history w = [] ->
  draw_average_display w = (inr tt, w).
Proof. apply draw_average_display_empty. Qed.

Lemma average_of_nothing_witness :
  draw_average_display (initial [] []) = (inr tt, initial [] []).
Proof. exact (average_of_nothing (initial [] []) eq_refl). Defined.

(** C6.  On a tick that ends normally the snapshot log gets exactly one
    line when Button B is pressed, the line of that tick's reading with the
    timestamp of [strftime], and nothing when it is not pressed.  Whether
    the change log got a line on that tick plays no part: from any other
    state with the same snapshot log, the same tick leaves the same
    snapshot log. *)
Theorem snapshot_per_press w i w' :
  body i w = (inr tt, w') ->
  exists temperature_c humidity,
    measurements i = inr (temperature_c, humidity) /\
    snapshot_file w' =
      (snapshot_file w ++
       (if pressed (button_B_value i)
        then [ log_line (strftime (snapshot_now i)) (c_to_f temperature_c)
                        humidity ]
        else []))%list /\
    (forall v v',
       snapshot_file v = snapshot_file w ->
       body i v = (inr tt, v') ->
       snapshot_file v' = snapshot_file w').
Proof.
  intro Hb.
  destruct (body_inv i w w' Hb)
    as (s & bar_t & bar_h & due & Hm & _ & _ & _ & _ & _ & ->).
  destruct s as [tc h]. exists tc, h. split; [exact Hm |].
  unfold after. cbn [snapshot_file fst snd]. split; [reflexivity |].
  intros v v' Hv Hbv.
  destruct (body_inv i v v' Hbv)
    as (s' & bt & bh & due' & Hm' & _ & _ & _ & _ & _ & ->).
  rewrite Hm in Hm'. injection Hm' as <-.
  unfold after. cbn [snapshot_file fst snd]. rewrite Hv. reflexivity.
Qed.

Lemma snapshot_per_press_witness :
  let w := initial [] [] in
  let pressed_B := snd (body (reading 20 50 true false) w) in
  let released_B := snd (body (reading 20 50 true true) w) in
  snapshot_file pressed_B =
    [ "2025-03-07 09:05:00 - Temp: 68.00" ++ degree_F ++ ", Humidity: 50.00%"
      ++ newline ] /\
  snapshot_file released_B = [].
Proof.
  cbn zeta. split.
  - destruct (snapshot_per_press (initial [] []) (reading 20 50 true false)
                (snd (body (reading 20 50 true false) (initial [] []))))
      as (tc & h & Hm & Hs & _).
    + vm_compute. reflexivity.
    + injection Hm as <- <-. rewrite Hs. vm_compute. reflexivity.
  - destruct (snapshot_per_press (initial [] []) (reading 20 50 true true)
                (snd (body (reading 20 50 true true) (initial [] []))))
      as (tc & h & Hm & Hs & _).
    + vm_compute. reflexivity.
    + rewrite Hs. reflexivity.
Defined.

(** C7.  A tick that ends normally does its steps in one order: the sensor
    is read and the reading printed, the default view is shown, the change
    log is written if due, Button A is read (and the average overlay shown
    and held when it is pressed), Button B is read (and the snapshot written
    and its overlay shown and held when it is pressed), and then the tick
    sleeps one second.  The two buttons are tested one after the other and
    both can fire: the canvas then gets the average view, over the history
    that already holds this tick's sample, before the snapshot view.  That
    the history is updated before the view is drawn shows when drawing
    raises: the sample is in the history, and nothing of the later steps
    has happened. *)
Theorem tick_order :
  (forall w i w',
     body i w = (inr tt, w') ->
     exists s bar_t bar_h due,
       measurements i = inr s /\
       let temp_f := c_to_f (fst s) in
       let hum := snd s in
       let hist := deque_append maxlen s (history w) in
       changed (prev_temp w) (prev_humidity w) temp_f hum = inr due /\
       history w' = hist /\
       trace w' =
         (trace w ++ sample_events temp_f hum ++ render_events ++
          log_events due (log_line (str_datetime (log_now i)) temp_f hum) ++
          button_A_events (button_A_value i) ++
          button_B_events (button_B_value i)
            (log_line (strftime (snapshot_now i)) temp_f hum) ++
          [Sleep 1])%list /\
       canvas w' =
         (canvas w ++ default_view temp_f hum (frame w) bar_t bar_h ++
          (if pressed (button_A_value i)
           then average_view (c_to_f (avg_temp_c hist)) (avg_humidity hist)
           else []) ++
          (if pressed (button_B_value i)
           then snapshot_view (strftime (snapshot_now i)) else []))%list) /\
  (forall w i s e,
     measurements i = inr s ->
     Py.int (c_to_f (fst s) / 122.0 * Py.float_of_Z 150)%float = inl e ->
     history (step w i) = deque_append maxlen s (history w) /\
     log_file (step w i) = log_file w /\
     trace (step w i) =
       (trace w ++ sample_events (c_to_f (fst s)) (snd s) ++
        [ Print ("Error reading sensor: " ++ Py.message e); PrintExc; Sleep 2 ])%list).
Proof.
  split.
  - intros w i w' Hb.
    destruct (body_inv i w w' Hb)
      as (s & bar_t & bar_h & due & Hm & _ & _ & Hc & _ & _ & ->).
    exists s, bar_t, bar_h, due. split; [exact Hm |].
    cbn zeta. unfold after. cbn [history trace canvas].
    repeat split; try reflexivity. exact Hc.
  - intros w i s e Hm Ht.
    assert (Hr : red_bar (c_to_f (fst s)) = inl e)
      by (apply drawn_bar_inl; left; exact Ht).
    destruct (body_render_error i w s Hm e (or_introl Hr)) as [shapes Hb].
    unfold step. rewrite (tick_handled i w e _ Hb).
    cbn [snd history log_file trace]. rewrite <- app_assoc.
    repeat split; reflexivity.
Qed.

Lemma tick_order_witness :
  let i := reading 22 52 false false in
  let w := run [reading 20 50 true true] (initial [] []) in
  trace (step w i) =
    (trace w ++
     [ Measure; Print ("Temp: 71.60" ++ degree_F ++ ", Humidity: 52.00%");
       DisplayImage;
       Write LOG_FILE ("2025-03-07 09:05:00.250000 - Temp: 71.60" ++ degree_F ++
                       ", Humidity: 52.00%" ++ newline);
       ReadButtonA; Print "Button A Pressed - Showing 15-Min Average";
       DisplayImage; Sleep 3;
       ReadButtonB; Print "Button B Pressed - Saving Snapshot";
       Write SNAPSHOT_FILE ("2025-03-07 09:05:00 - Temp: 71.60" ++ degree_F ++
                            ", Humidity: 52.00%" ++ newline);
       DisplayImage; Sleep 2;
       Sleep 1 ])%list /\
  history (step (initial [] []) (reading nan 50 true true)) = [(nan, 50)%float].
Proof.
  cbn zeta. split.
  - destruct (proj1 tick_order
                (run [reading 20 50 true true] (initial [] []))
                (reading 22 52 false false)
                (step (run [reading 20 50 true true] (initial [] []))
                      (reading 22 52 false false)))
      as (s & bar_t & bar_h & due & Hm & Hc & _ & Htr & _).
    + vm_compute. reflexivity.
    + injection Hm as <-. rewrite Htr.
      assert (E : due = true) by (vm_compute in Hc; congruence).
      rewrite E. vm_compute. reflexivity.
  - destruct (proj2 tick_order (initial [] []) (reading nan 50 true true)
                (nan, 50)%float
                (Py.Exn Py.ValueError "cannot convert float NaN to integer")
                eq_refl)
      as (Hh & _).
    + vm_compute. reflexivity.
    + rewrite Hh. vm_compute. reflexivity.
Defined.

(** C8.  The default view takes [int((temp_f / 122.0) * 150)] as the
    height of the temperature bar and [int((humidity / 100.0) * 150)] as
    the height of the humidity bar, and hands the boxes from 200 minus the
    height down to y = 200 to the canvas as they are: 61 degrees and 50
    percent give 75 pixels each.  Nothing clamps the heights.  A height
    above 200, as the 300 pixels of 244 degrees, gives a bar that leaves
    the canvas at the top.  A negative height, as the -75 pixels of -61
    degrees, gives a box standing on its head, which the canvas refuses:
    the rectangle raises, and the view stops after what was drawn before
    it. *)
Theorem bar_heights temp_f humidity fr w bar_t bar_h :
  Py.int (temp_f / 122.0 * Py.float_of_Z 150)%float = inr bar_t ->
  Py.int (humidity / 100.0 * Py.float_of_Z 150)%float = inr bar_h ->
  (0 <= bar_t -> 0 <= bar_h ->
   exists w',
     draw_graphical_display temp_f humidity fr w = (inr tt, w') /\
     canvas w' =
       (canvas w ++
        [ Rectangle 0 0 240 240 "black";
          Text 20 20 ("Temp: " ++ Py.format_f 1 temp_f ++ degree_F) "white";
          Text 20 50 ("Humidity: " ++ Py.format_f 1 humidity ++ "%") "white";
          Rectangle 180 (200 - bar_t) 210 200 "red";
          Rectangle 220 (200 - bar_h) 250 200 "blue";
          Rectangle 180 225 (180 + fr mod 50) 230 "green" ])%list) /\
  (bar_t < 0 ->
   exists w',
     draw_graphical_display temp_f humidity fr w =
       (inl (Py.Exn Py.ValueError "y1 must be greater than or equal to y0"), w') /\
     canvas w' =
       (canvas w ++
        [ Rectangle 0 0 240 240 "black";
          Text 20 20 ("Temp: " ++ Py.format_f 1 temp_f ++ degree_F) "white";
          Text 20 50 ("Humidity: " ++ Py.format_f 1 humidity ++ "%") "white" ])%list /\
     trace w' = trace w) /\
  (0 <= bar_t -> bar_h < 0 ->
   exists w',
     draw_graphical_display temp_f humidity fr w =
       (inl (Py.Exn Py.ValueError "y1 must be greater than or equal to y0"), w') /\
     canvas w' =
       (canvas w ++
        [ Rectangle 0 0 240 240 "black";
          Text 20 20 ("Temp: " ++ Py.format_f 1 temp_f ++ degree_F) "white";
          Text 20 50 ("Humidity: " ++ Py.format_f 1 humidity ++ "%") "white";
          Rectangle 180 (200 - bar_t) 210 200 "red" ])%list /\
     trace w' = trace w) /\
  Py.int (61 / 122.0 * Py.float_of_Z 150)%float = inr 75 /\
  Py.int (50 / 100.0 * Py.float_of_Z 150)%float = inr 75 /\
  Py.int (244 / 122.0 * Py.float_of_Z 150)%float = inr 300 /\
  Py.int (-61 / 122.0 * Py.float_of_Z 150)%float = inr (-75).
Proof.
  intros Ht Hh. split; [| split; [| split]].
  - intros Hpt Hph. eexists. split.
    + apply (draw_graphical_display_ok temp_f humidity fr w bar_t bar_h);
        apply drawn_bar_inr; split; assumption.
    + reflexivity.
  - intro Hn. unfold draw_graphical_display. run_m. rewrite Ht. run_m.
    rewrite (rectangle_error_inverted 180 210 bar_t) by lia. run_m.
    eexists. split; [reflexivity |]. cbn [canvas trace].
    rewrite <- !app_assoc. split; reflexivity.
  - intros Hpt Hn. unfold draw_graphical_display. run_m. rewrite Ht. run_m.
    rewrite (rectangle_error_bar 180 210 bar_t) by lia. run_m.
    rewrite Hh. run_m.
    rewrite (rectangle_error_inverted 220 250 bar_h) by lia. run_m.
    eexists. split; [reflexivity |]. cbn [canvas trace].
    rewrite <- !app_assoc. split; reflexivity.
  - vm_compute. repeat split; reflexivity.
Qed.

Lemma bar_heights_witness :
  (exists w',
     draw_graphical_display 61 50 0 (initial [] []) = (inr tt, w') /\
     canvas w' =
       [ Rectangle 0 0 240 240 "black";
         Text 20 20 ("Temp: 61.0" ++ degree_F) "white";
         Text 20 50 "Humidity: 50.0%" "white";
         Rectangle 180 125 210 200 "red";
         Rectangle 220 125 250 200 "blue";
         Rectangle 180 225 180 230 "green" ]) /\
  (exists w',
     draw_graphical_display (-61) 50 0 (initial [] []) =
       (inl (Py.Exn Py.ValueError "y1 must be greater than or equal to y0"), w') /\
     canvas w' =
       [ Rectangle 0 0 240 240 "black";
         Text 20 20 ("Temp: -61.0" ++ degree_F) "white";
         Text 20 50 "Humidity: 50.0%" "white" ] /\
     trace w' = trace (initial [] [])).
Proof.
  split.
  - refine (proj1 (bar_heights 61 50 0 (initial [] []) 75 75 _ _) _ _);
      try (vm_compute; reflexivity); lia.
  - refine (proj1 (proj2 (bar_heights (-61) 50 0 (initial [] []) (-75) 75 _ _)) _);
      try (vm_compute; reflexivity); lia.
Defined.

(** C9.  The running indicator is filled over [frame mod 50] pixels from
    x = 180: nothing at frame 0, 48 pixels at frame 48, nothing again at
    frame 50.  A tick that ends normally adds exactly 2 to the frame
    counter, and no tick, however it ends, makes it smaller. *)
Theorem frame_counter :
  (forall fr w,
     draw_running_indicator fr w =
     (inr tt,
      MkWorld (prev_temp w) (prev_humidity w) (history w) (frame w)
              (canvas w ++ [Rectangle 180 225 (180 + fr mod 50) 230 "green"])%list
              (log_file w) (snapshot_file w) (trace w))) /\
  (0 mod 50 = 0 /\ 48 mod 50 = 48 /\ 50 mod 50 = 0) /\
  (forall w i w', body i w = (inr tt, w') -> frame w' = frame w + 2) /\
  (forall w i, frame w <= frame (step w i)) /\
  (forall w inputs, frame w <= frame (run inputs w)).
Proof.
  split; [| repeat split].
  - intros fr w. run_m. reflexivity.
  - intros w i w' Hb.
    destruct (body_inv i w w' Hb) as (s & bt & bh & due & _ & _ & _ & _ & _ & _ & ->).
    reflexivity.
  - intros w i. exact (tick_frame_grows i w).
  - intros w inputs. revert w.
    induction inputs as [| i rest IH]; intro w; cbn [run fold_left]; [lia |].
    pose proof (tick_frame_grows i w) as H1. specialize (IH (step w i)).
    unfold frame_grows, run, step in *. lia.
Qed.

Lemma frame_counter_witness :
  frame (snd (body (reading 20 50 true true) (initial [] []))) = 2.
Proof.
  refine (proj1 (proj2 (proj2 frame_counter)) (initial [] [])
            (reading 20 50 true true) _ _).
  vm_compute. reflexivity.
Defined.



(** * Every way a tick can end *)

Lemma check_for_button_presses_fails i temp_f humidity w e :
  history w <> [] ->
  pressed (button_B_value i) = true ->
  snapshot_open i = Some e ->
  check_for_button_presses i temp_f humidity w =
  (inl e,
   MkWorld (prev_temp w) (prev_humidity w) (history w) (frame w)
           (canvas w ++
            (if pressed (button_A_value i)
             then average_view (c_to_f (avg_temp_c (history w)))
                               (avg_humidity (history w))
             else []))%list
           (log_file w) (snapshot_file w)
           (trace w ++ button_A_events (button_A_value i) ++
            [ReadButtonB; Print "Button B Pressed - Saving Snapshot"])%list).
Proof.
  intros Hne Hb Hs.
  unfold check_for_button_presses, save_snapshot, write_snapshot, pressed in *.
  rewrite Hb, Hs. run_m.
  destruct (button_A_value i); cbn [negb]; run_m;
    [| erewrite bind_ok by (apply draw_average_display_ok; exact Hne); run_m ];
    unfold button_A_events, pressed; cbn [negb];
    rewrite <- ?app_assoc, ?app_nil_r; cbn [List.app]; reflexivity.
Qed.

Lemma body_snapshot_fails i w s bar_t bar_h due e :
  measurements i = inr s ->
  red_bar (c_to_f (fst s)) = inr bar_t ->
  blue_bar (snd s) = inr bar_h ->
  changed (prev_temp w) (prev_humidity w) (c_to_f (fst s)) (snd s) = inr due ->
  (due = true -> log_open i = None) ->
  pressed (button_B_value i) = true ->
  snapshot_open i = Some e ->
  body i w = (inl e, before_snapshot i w s bar_t bar_h due).
Proof.
  intros Hm Ht Hh Hc Hl Hb Hs.
  rewrite (body_rendered i w s Hm bar_t bar_h Ht Hh).
  erewrite bind_ok by (apply log_changes_ok; [exact Hc | exact Hl]).
  erewrite bind_raises
    by (apply check_for_button_presses_fails;
        [ cbn [history before_log]; apply deque_append_nonempty; unfold maxlen; lia
        | exact Hb | exact Hs ]).
  unfold before_snapshot, before_log.
  cbn [history prev_temp prev_humidity frame canvas log_file snapshot_file trace].
  rewrite <- !app_assoc. reflexivity.
Qed.

Lemma step_handled i w e w1 :
  body i w = (inl e, w1) -> step w i = handled w1 e.
Proof. intro H. unfold step. rewrite (tick_handled i w e w1 H). reflexivity. Qed.

Lemma step_normal i w w' :
  body i w = (inr tt, w') -> step w i = w'.
Proof. intro H. unfold step. rewrite (tick_normal i w w' H). reflexivity. Qed.

(** Each iteration ends in one of the five ways. *)
Lemma step_outcome i w : outcome i w (step w i).
Proof.
  destruct (measurements i) as [e | s] eqn:Hm.
  { rewrite (step_handled i w e _ (body_sensor_error i w e Hm)).
    apply SensorFailed. exact Hm. }
  destruct (red_bar (c_to_f (fst s))) as [e | bar_t] eqn:Ht.
  { destruct (body_render_error i w s Hm e (or_introl Ht)) as [shapes E].
    rewrite (step_handled i w e _ E).
    apply RenderFailed; [exact Hm | left; exact Ht]. }
  destruct (blue_bar (snd s)) as [e | bar_h] eqn:Hh.
  { destruct (body_render_error i w s Hm e
                (or_intror (ex_intro _ bar_t (conj Ht Hh)))) as [shapes E].
    rewrite (step_handled i w e _ E).
    apply RenderFailed; [exact Hm | right; exists bar_t; split; assumption]. }
  destruct (changed (prev_temp w) (prev_humidity w) (c_to_f (fst s)) (snd s))
    as [e | due] eqn:Hc.
  { rewrite (step_handled i w e _
               (body_log_error i w s Hm bar_t bar_h Ht Hh e (or_introl Hc))).
    apply LogFailed; [exact Hm | exact Ht | exact Hh | left; exact Hc]. }
  destruct due.
  - destruct (log_open i) as [e |] eqn:Hl.
    { rewrite (step_handled i w e _
                 (body_log_error i w s Hm bar_t bar_h Ht Hh e
                    (or_intror (conj Hc Hl)))).
      apply LogFailed; [exact Hm | exact Ht | exact Hh | right; split; assumption]. }
    destruct (pressed (button_B_value i)) eqn:Hb;
      [destruct (snapshot_open i) as [e |] eqn:Hs |].
    + rewrite (step_handled i w e _
                 (body_snapshot_fails i w s bar_t bar_h true e Hm Ht Hh Hc
                    (fun _ => Hl) Hb Hs)).
      apply SnapshotFailed; auto.
    + rewrite (step_normal i w _
                 (body_ok i w s Hm bar_t bar_h Ht Hh true Hc (fun _ => Hl)
                    (fun _ => Hs))).
      apply Completed; auto.
    + rewrite (step_normal i w _
                 (body_ok i w s Hm bar_t bar_h Ht Hh true Hc (fun _ => Hl)
                    ltac:(rewrite Hb; discriminate))).
      apply Completed; auto. rewrite Hb. discriminate.
  - assert (Hl : false = true -> log_open i = None) by discriminate.
    destruct (pressed (button_B_value i)) eqn:Hb;
      [destruct (snapshot_open i) as [e |] eqn:Hs |].
    + rewrite (step_handled i w e _
                 (body_snapshot_fails i w s bar_t bar_h false e Hm Ht Hh Hc Hl Hb Hs)).
      apply SnapshotFailed; auto.
    + rewrite (step_normal i w _
                 (body_ok i w s Hm bar_t bar_h Ht Hh false Hc Hl (fun _ => Hs))).
      apply Completed; auto.
    + rewrite (step_normal i w _
                 (body_ok i w s Hm bar_t bar_h Ht Hh false Hc Hl
                    ltac:(rewrite Hb; discriminate))).
      apply Completed; auto. rewrite Hb. discriminate.
Qed.

Lemma run_invariant (P : World -> Prop) :
  (forall w i, P w -> P (step w i)) ->
  forall inputs w, P w -> P (run inputs w).
Proof.
  intros Hstep inputs. induction inputs as [| i rest IH]; intros w H; [exact H |].
  cbn [run fold_left]. apply IH. apply Hstep. exact H.
Qed.

(** * Further properties of the loop *)



(** X2.  In every state the loop can reach, [prev_temp] and
    [prev_humidity] are both unset or both set, so the change test never
    subtracts [None]: it always yields a truth value, the one of the rule
    of the change log. *)
Theorem change_test_never_raises w temp_f humidity :
  reachable w ->
  (prev_temp w = None <-> prev_humidity w = None) /\
  changed (prev_temp w) (prev_humidity w) temp_f humidity =
  inr (log_due (last_logged w) temp_f humidity).
Proof.
  intro Hr. pose proof (reachable_paired w Hr) as Hp.
  split; [exact Hp | apply changed_paired; exact Hp].
Qed.

Lemma change_test_never_raises_witness :
  let w := run [reading 20 50 true true] (initial [] []) in
  (prev_temp w = None <-> prev_humidity w = None) /\
  changed (prev_temp w) (prev_humidity w) (c_to_f 20.1) 50 =
  inr (log_due (last_logged w) (c_to_f 20.1) 50).
Proof.
  apply (change_test_never_raises
           (run [reading 20 50 true true] (initial [] [])) (c_to_f 20.1) 50).
  exists [], [], [reading 20 50 true true]. reflexivity.
Defined.

Lemma step_frame w i :
  frame (step w i) = frame w + (if drawn i then 2 else 0).
Proof.
  unfold drawn.
  destruct (step_outcome i w)
    as [e Hm | s e shapes Hm [Ht | (bt & Ht & Hh)] | s bt bh e Hm Ht Hh _
        | s bt bh due e Hm Ht Hh _ _ _ _ | s bt bh due Hm Ht Hh _ _ _];
    rewrite Hm, ?Ht, ?Hh; cbn [frame handled before_log before_snapshot after];
    lia.
Qed.

(** X3.  From the start of the loop the frame counter is twice the number
    of ticks whose default view was drawn: those whose sensor delivered,
    whose bar heights are numbers and whose bars the canvas accepted.  So
    the running indicator is filled over an even number of pixels, 48 at
    most. *)
Theorem frame_counts_drawn_ticks log0 snap0 inputs :
  let fr := frame (run inputs (initial log0 snap0)) in
  fr = 2 * Z.of_nat (List.length (filter drawn inputs)) /\
  (fr mod 50) mod 2 = 0 /\
  0 <= fr mod 50 <= 48.
Proof.
  cbn zeta.
  assert (E : forall l w,
             frame (run l w) = frame w + 2 * Z.of_nat (List.length (filter drawn l))).
  { induction l as [| i rest IH]; intro w; cbn [run fold_left filter List.length].
    - lia.
    - fold (run rest (step w i)). rewrite IH, step_frame.
      destruct (drawn i); cbn [List.length]; lia. }
  rewrite E. cbn [frame initial].
  set (n := Z.of_nat (List.length (filter drawn inputs))).
  replace (0 + 2 * n) with (2 * n) by lia.
  assert (M : (2 * n) mod 50 = 2 * (n mod 25)).
  { change 50 with (2 * 25). apply Z.mul_mod_distr_l; lia. }
  rewrite M. pose proof (Z.mod_pos_bound n 25 ltac:(lia)).
  repeat split; try lia.
  rewrite Z.mul_comm. apply Z.mod_mul. lia.
Qed.


Lemma shown_app a b : shown (a ++ b) = shown a + shown b.
Proof.
  induction a as [| [ | | | | | | | n] a IH]; cbn [List.app shown]; lia.
Qed.

Ltac tick_count app_lemma :=
  cbn [trace handled before_log before_snapshot after];
  unfold sample_events, render_events, log_events, button_A_events,
    button_B_events;
  repeat match goal with
         | |- context [if ?b then _ else _] => destruct b
         end;
  rewrite !app_lemma; cbn [slept shown fst List.app];
  repeat split; intros; try discriminate; try congruence; lia.




(** X5.  A tick sends the canvas to the panel once for the default view,
    once more for each overlay, and not at all when the sensor or the
    drawing of the bars failed. *)
Theorem tick_refreshes w i :
  let d := shown (trace (step w i)) - shown (trace w) in
  (fst (body i w) = inr tt ->
   d = 1 + (if pressed (button_A_value i) then 1 else 0) +
       (if pressed (button_B_value i) then 1 else 0)) /\
  (drawn i = false -> d = 0) /\
  0 <= d <= 3.
Proof.
  cbn zeta. unfold drawn.
  destruct (step_outcome i w)
    as [e Hm | s e shapes Hm Hr | s bt bh e Hm Ht Hh Hc
        | s bt bh due e Hm Ht Hh Hc Hl Hp Hs | s bt bh due Hm Ht Hh Hc Hl Hs].
  - rewrite (body_sensor_error i w e Hm), Hm. tick_count shown_app.
  - destruct (body_render_error i w s Hm e Hr) as [shapes' E]. rewrite E, Hm.
    tick_count shown_app.
  - rewrite (body_log_error i w s Hm bt bh Ht Hh e Hc), Hm, Ht, Hh. tick_count shown_app.
  - rewrite (body_snapshot_fails i w s bt bh due e Hm Ht Hh Hc Hl Hp Hs).
    rewrite Hm, Ht, Hh, Hp. tick_count shown_app.
  - rewrite (body_ok i w s Hm bt bh Ht Hh due Hc Hl Hs), Hm, Ht, Hh.
    tick_count shown_app.
Qed.

Lemma tick_refreshes_witness :
  shown (trace (step (initial [] []) (reading 20 50 false false))) -
  shown (trace (initial [] [])) = 3.
Proof.
  refine (proj1 (tick_refreshes (initial [] []) (reading 20 50 false false)) _).
  vm_compute. reflexivity.
Defined.





(** ** A reading that is not a number *)

Lemma add_nan_r x : (x + nan)%float = nan.
Proof.
  apply Prim2SF_inj. rewrite add_spec.
  change (Prim2SF nan) with S754_nan. destruct (Prim2SF x); reflexivity.
Qed.

Lemma add_nan_l x : (nan + x)%float = nan.
Proof.
  apply Prim2SF_inj. rewrite add_spec.
  change (Prim2SF nan) with S754_nan. reflexivity.
Qed.

Lemma div_nan_l x : (nan / x)%float = nan.
Proof.
  apply Prim2SF_inj. rewrite div_spec.
  change (Prim2SF nan) with S754_nan. reflexivity.
Qed.

Lemma sum_from_nan l : fold_left PrimFloat.add l nan = nan.
Proof.
  induction l as [| x l IH]; cbn [fold_left]; [reflexivity |].
  rewrite add_nan_l. exact IH.
Qed.

Lemma sum_with_nan l acc : In nan l -> fold_left PrimFloat.add l acc = nan.
Proof.
  revert acc. induction l as [| x l IH]; intros acc H; [destruct H |].
  cbn [fold_left]. destruct H as [-> | H].
  - rewrite add_nan_r. apply sum_from_nan.
  - apply IH. exact H.
Qed.

Lemma deque_append_newest {A} n (x : A) d :
  (0 < n)%nat -> In x (deque_append n x d).
Proof.
  intro Hn. unfold deque_append.
  destruct (Nat.ltb_spec n (List.length (d ++ [x]))) as [H | H].
  - rewrite length_app in H. cbn [List.length] in H.
    destruct d as [| a d]; cbn [List.length] in H; [lia |].
    cbn [List.app tl]. apply in_or_app. right. left. reflexivity.
  - apply in_or_app. right. left. reflexivity.
Qed.

(** X9.  When the sensor delivers a temperature that is not a number, the
    tick fails at the drawing of the bar, as [int] refuses the height; but
    the sample has been stored before, and as long as it is in the history
    the average display shows [nan] for the temperature. *)
Theorem nan_reading_stays_in_history w i humidity :
  measurements i = inr (nan, humidity) ->
  fst (body i w) =
    inl (Py.Exn Py.ValueError "cannot convert float NaN to integer") /\
  In (nan, humidity) (history (step w i)) /\
  forall v,
    In (nan, humidity) (history v) ->
    exists v',
      draw_average_display v = (inr tt, v') /\
      In (Text 40 100 ("Temp: nan" ++ degree_F) "white") (canvas v').
Proof.
  intro Hm. split; [| split].
  - destruct (body_render_error i w (nan, humidity) Hm
                (Py.Exn Py.ValueError "cannot convert float NaN to integer"))
      as [shapes E].
    + left. vm_compute. reflexivity.
    + rewrite E. reflexivity.
  - pose proof (step_history w i) as H. rewrite Hm in H. rewrite H.
    apply deque_append_newest. unfold maxlen. lia.
  - intros v Hin.
    assert (Hne : history v <> []) by (intro E; rewrite E in Hin; destruct Hin).
    eexists. split; [apply draw_average_display_ok; exact Hne |].
    cbn [canvas]. apply in_or_app. right.
    assert (E : avg_temp_c (history v) = nan).
    { unfold avg_temp_c, Py.sum. rewrite sum_with_nan; [apply div_nan_l |].
      change nan with (fst (nan, humidity)). apply in_map. exact Hin. }
    rewrite E. unfold average_view. right. right. left. reflexivity.
Qed.

Lemma nan_reading_stays_in_history_witness :
  In (nan, 50%float) (history (step (initial [] []) (reading nan 50 true true))).
Proof.
  exact (proj1 (proj2 (nan_reading_stays_in_history
                         (initial [] []) (reading nan 50 true true) 50 eq_refl))).
Defined.

(** X10.  Whatever the frame counter, also a negative one, the running
    indicator lies within the canvas: it starts at x = 180 and ends before
    x = 230, between y = 225 and y = 230. *)
Theorem indicator_inside_canvas fr w :
  exists x1,
    draw_running_indicator fr w =
    (inr tt,
     MkWorld (prev_temp w) (prev_humidity w) (history w) (frame w)
             (canvas w ++ [Rectangle 180 225 x1 230 "green"])%list
             (log_file w) (snapshot_file w) (trace w)) /\
    180 <= x1 < 230 /\
    inside (Rectangle 180 225 x1 230 "green").
Proof.
  exists (180 + fr mod 50). pose proof (Z.mod_pos_bound fr 50 ltac:(lia)).
  split; [run_m; reflexivity |]. unfold inside, width, height. lia.
Qed.
